(** * Data-quality validation agent and audit trail: a shallow embedding

    The development follows [agents/data_quality_validation.py]
    (class [DataQualityValidationAgent]) and [AuditTrail.py]
    (class [AuditTrailAgent]).

    Conventions of the embedding.
    - A Python [float] (and a NumPy [float64]) is an exact rational in lowest
      terms ([Qc]); rounding and formatting are done on the exact value.
      Infinities and the sign of zero are not represented; NaN only occurs as
      the missing-cell marker.
    - A Python [dict] is an insertion-ordered association list with unique
      keys ([Py.dict]); assigning to a key that is present keeps its place.
    - Exceptions are values of [Py.result]; [try ... except Exception] is
      [Py.try_except].
    - A pandas [DataFrame] is an index length together with the ordered list
      of its labelled columns; a column ([Series]) carries its dtype, so the
      cells of an [int64] column are integers because of the type.  Complex
      dtypes are not represented.  Column labels are strings; [df[col]] is read
      as the column the loop is visiting, which is what pandas returns when
      labels are distinct (as they are in every frame made by [read_csv], the
      only producer in the repository's drivers). *)

From Stdlib Require Import ZArith QArith Qcanon List String Ascii Lia.
From stdpp Require Import base decidable list numbers sorting strings pretty.

Local Open Scope string_scope.

(** ** Python: exceptions, dictionaries, truthiness, number formatting *)

Module Py.

Inductive exn : Type :=
| ValueError
| TypeError.

Inductive result (A : Type) : Type :=
| Ret (a : A)
| Raise (e : exn).

Arguments Ret {A} a.
Arguments Raise {A} e.

Definition bind {A B} (m : result A) (k : A -> result B) : result B :=
  match m with
  | Ret a => k a
  | Raise e => Raise e
  end.

(** [try: body except Exception: handler] *)
Definition try_except {A} (body : result A) (handler : exn -> result A) : result A :=
  match body with
  | Ret a => Ret a
  | Raise e => handler e
  end.

Definition dict (V : Type) : Type := list (string * V).

(** [d[k] = v] *)
Fixpoint dict_set {V} (d : dict V) (k : string) (v : V) : dict V :=
  match d with
  | [] => [(k, v)]
  | (k', v') :: d' =>
      if decide (k' = k) then (k', v) :: d' else (k', v') :: dict_set d' k v
  end.

(** [d.get(k)] *)
Fixpoint dict_get {V} (d : dict V) (k : string) : option V :=
  match d with
  | [] => None
  | (k', v') :: d' => if decide (k' = k) then Some v' else dict_get d' k
  end.

Definition keys {V} (d : dict V) : list string := map fst d.

(** Truth value of a list or dict: non-empty. *)
Definition truthy {A} (l : list A) : bool :=
  match l with
  | [] => false
  | _ :: _ => true
  end.

(** Truth value of an optional string argument: [None] and [""] are falsy. *)
Definition truthy_str (s : option string) : bool :=
  match s with
  | None => false
  | Some "" => false
  | Some _ => true
  end.

(** Nearest integer, ties to the even one. *)
Definition round_half_even (q : Q) : Z :=
  let n := Qnum q in
  let d := Zpos (Qden q) in
  let f := (n / d)%Z in
  let r := (n mod d)%Z in
  match (2 * r ?= d)%Z with
  | Lt => f
  | Gt => (f + 1)%Z
  | Eq => if Z.even f then f else (f + 1)%Z
  end.

Definition pow10 (n : nat) : positive := Pos.pow 10 (Pos.of_nat n).

(** [round(x, ndigits)] for [ndigits >= 1]. *)
Definition round (x : Qc) (ndigits : nat) : Qc :=
  let scale := pow10 ndigits in
  Q2Qc (round_half_even (this x * (Zpos scale # 1)) # scale).

(** [f"{x:.1f}"] *)
Definition format_1f (x : Qc) : string :=
  let t := Z.abs (round_half_even (this x * (10 # 1))) in
  let sign := if decide (x < 0)%Qc then "-" else "" in
  sign +:+ pretty (t / 10)%Z +:+ "." +:+ pretty (t mod 10)%Z.

End Py.

#[global] Instance result_ret : MRet Py.result := @Py.Ret.
#[global] Instance result_bind : MBind Py.result := fun A B k m => Py.bind m k.

(** Integers and fractions as rationals. *)
Definition qz (z : Z) : Qc := Q2Qc (inject_Z z).
Definition qfrac (n : Z) (d : positive) : Qc := Q2Qc (n # d).

(** ** pandas: cells, columns, frames *)

Module Pandas.

(** A cell as a Python object, the way [Series.apply] and [Series.map] hand it
    to a function. *)
Inductive pyobj : Type :=
| PyNull                 (* None, NaN, pd.NA *)
| PyInt (z : Z)
| PyFloat (q : Qc)
| PyBool (b : bool)
| PyStr (s : string)
| PyOther (cls : nat).   (* an instance of any other class, [cls] names the class *)

(** [type(x)] *)
Inductive pytype : Type :=
| TNone
| TInt
| TFloat
| TBool
| TStr
| TClass (cls : nat).

#[global] Instance pytype_eq_dec : EqDecision pytype.
Proof. solve_decision. Defined.

Definition type (x : pyobj) : pytype :=
  match x with
  | PyNull => TNone
  | PyInt _ => TInt
  | PyFloat _ => TFloat
  | PyBool _ => TBool
  | PyStr _ => TStr
  | PyOther cls => TClass cls
  end.

(** [pd.isnull(x)] on a scalar *)
Definition isnull (x : pyobj) : bool :=
  match x with
  | PyNull => true
  | _ => false
  end.

(** [isinstance(x, (int, float, np.number))]; [bool] is a subclass of [int]. *)
Definition isinstance_number (x : pyobj) : bool :=
  match x with
  | PyInt _ | PyFloat _ | PyBool _ => true
  | _ => false
  end.

(** A column with its dtype. *)
Inductive Series : Type :=
| Int64 (values : list (option Z))
| Float64 (values : list (option Qc))
| Boolean (values : list (option bool))
| Object (values : list pyobj)
| Extension (values : list pyobj).   (* datetime64, category, string[...] *)

Definition box {A} (f : A -> pyobj) (v : option A) : pyobj :=
  match v with
  | Some a => f a
  | None => PyNull
  end.

(** The cells of a column as Python objects. *)
Definition cells (s : Series) : list pyobj :=
  match s with
  | Int64 v => map (box PyInt) v
  | Float64 v => map (box PyFloat) v
  | Boolean v => map (box PyBool) v
  | Object v => v
  | Extension v => v
  end.

Definition len (s : Series) : nat := length (cells s).

(** [pd.api.types.is_numeric_dtype] *)
Definition is_numeric_dtype (s : Series) : bool :=
  match s with
  | Int64 _ | Float64 _ | Boolean _ => true
  | _ => false
  end.

(** [pd.api.types.is_object_dtype] *)
Definition is_object_dtype (s : Series) : bool :=
  match s with
  | Object _ => true
  | _ => false
  end.

(** Membership in [select_dtypes(include=[np.number])]: booleans are left out. *)
Definition is_number_dtype (s : Series) : bool :=
  match s with
  | Int64 _ | Float64 _ => true
  | _ => false
  end.

(** [series.dropna()] as Python objects *)
Definition dropna (s : Series) : list pyobj :=
  filter (fun x => isnull x = false) (cells s).

(** [series.dropna()] of a column of [select_dtypes(include=[np.number])], as
    numbers. *)
Definition dropna_numbers (s : Series) : list Qc :=
  match s with
  | Int64 v => omap (fun c => qz <$> c) v
  | Float64 v => omap id v
  | _ => []
  end.

(** [series.isnull().sum()] *)
Definition count_null (s : Series) : nat :=
  length (filter (fun x => isnull x = true) (cells s)).

(** [series.isnull().any()] *)
Definition any_null (s : Series) : bool := existsb isnull (cells s).

(** [series.isnull().mean()] *)
Definition mean_null (s : Series) : Qc :=
  (qz (Z.of_nat (count_null s)) / qz (Z.of_nat (len s)))%Qc.

(** [series.map(type).nunique()] on the non-missing cells *)
Definition nunique_types (l : list pyobj) : nat :=
  length (remove_dups (map type l)).

(** The recogniser of numeric text used by [pd.to_numeric] belongs to pandas;
    the development is parametric in it. *)
Class NumericText := parse_number : string -> option Qc.

(** [pd.to_numeric] on one object: numbers pass, a missing value stays
    missing, text is parsed, anything else is a type error. *)
Definition to_numeric1 `{NumericText} (x : pyobj) : Py.result (option Qc) :=
  match x with
  | PyNull => Py.Ret None
  | PyInt z => Py.Ret (Some (qz z))
  | PyFloat q => Py.Ret (Some q)
  | PyBool b => Py.Ret (Some (if b then qz 1 else qz 0))
  | PyStr s =>
      match parse_number s with
      | Some q => Py.Ret (Some q)
      | None => Py.Raise Py.ValueError
      end
  | PyOther _ => Py.Raise Py.TypeError
  end.

(** [pd.to_numeric(values)] with the default [errors="raise"] *)
Fixpoint to_numeric `{NumericText} (l : list pyobj) : Py.result (list (option Qc)) :=
  match l with
  | [] => Py.Ret []
  | x :: l' =>
      q ← to_numeric1 x;
      qs ← to_numeric l';
      Py.Ret (q :: qs)
  end.

(** [series.quantile(q)] with the default linear interpolation, for
    [q = num/den] in [0, 1] and a non-empty [series]: the value at the
    fractional position [q * (n - 1)] of the sorted values. *)
Definition quantile (series : list Qc) (num : nat) (den : positive) : Qc :=
  let sorted := merge_sort Qcle series in
  let n := length series in
  let pos := (Z.of_nat num * Z.of_nat (n - 1))%Z in
  let lo := Z.to_nat (pos / Zpos den) in
  let frac := qfrac (pos mod Zpos den) den in
  let a := nth lo sorted (qz 0) in
  let b := nth (Nat.min (lo + 1) (n - 1)) sorted (qz 0) in
  (a + (b - a) * frac)%Qc.

Record DataFrame : Type := {
  index_len : nat;                        (* df.shape[0] *)
  columns : list (string * Series);       (* df.columns with df[col] *)
}.

(** [df.empty]: true when either axis has length 0. *)
Definition empty (df : DataFrame) : bool :=
  (index_len df =? 0)%nat || (length (columns df) =? 0)%nat.


End Pandas.

(** ** agents/data_quality_validation.py *)

Module DataQuality.
Import Pandas.

Record DataQualityValidationAgent : Type := {
  missing_warn_threshold : Qc;
  missing_critical_threshold : Qc;
  outlier_iqr_multiplier : Qc;
}.

(** [DataQualityValidationAgent()] with the default arguments of [__init__] *)
Definition default_agent : DataQualityValidationAgent := {|
  missing_warn_threshold := qfrac 10 100;
  missing_critical_threshold := qfrac 30 100;
  outlier_iqr_multiplier := qfrac 15 10;
|}.

Record Summary : Type := {
  num_rows : nat;
  num_columns : nat;
  summary_columns : list string;
}.

Record Anomaly : Type := {
  method : string;
  count : nat;
  percentage : Qc;
}.

(** The dict literal built in [run] before the severity is known. *)
Record Diagnostics : Type := {
  d_dataset_summary : Summary;
  d_missing_values : Py.dict Qc;
  d_type_issues : Py.dict string;
  d_anomalies : Py.dict Anomaly;
}.

Record Report : Type := {
  dataset_summary : Summary;
  missing_values : Py.dict Qc;
  type_issues : Py.dict string;
  anomalies : Py.dict Anomaly;
  severity : string;
  blocking_issues : list string;
}.

Definition _dataset_summary (df : DataFrame) : Summary := {|
  num_rows := index_len df;
  num_columns := length (columns df);
  summary_columns := map fst (columns df);
|}.

Definition _check_missing_values (df : DataFrame) : Py.dict Qc :=
  fold_left
    (fun acc '(col, series) =>
       if any_null series
       then Py.dict_set acc col (Py.round (mean_null series) 4)
       else acc)
    (columns df) [].

(** The lambda passed to [series.apply] in the numeric branch. *)
Definition non_numeric (x : pyobj) : bool :=
  negb (isinstance_number x) && negb (isnull x).

Section TypeConsistency.
Context `{NumericText}.

(** One iteration of the loop of [_check_type_consistency]. *)
Definition check_column (issues : Py.dict string) (col : string) (series : Series)
  : Py.result (Py.dict string) :=
  if is_numeric_dtype series then
    let non_numeric_count := length (filter (fun x => non_numeric x = true) (cells series)) in
    if (0 <? non_numeric_count)%nat
    then Py.Ret (Py.dict_set issues col "Numeric column contains non-numeric values")
    else Py.Ret issues
  else if is_object_dtype series then
    Py.try_except
      (_ ← to_numeric (dropna series); Py.Ret issues)
      (fun _ =>
         let unique_types := nunique_types (dropna series) in
         if (1 <? unique_types)%nat
         then Py.Ret (Py.dict_set issues col "Mixed data types in column")
         else Py.Ret issues)
  else Py.Ret issues.

Fixpoint check_columns (issues : Py.dict string) (cols : list (string * Series))
  : Py.result (Py.dict string) :=
  match cols with
  | [] => Py.Ret issues
  | (col, series) :: rest =>
      issues' ← check_column issues col series;
      check_columns issues' rest
  end.

Definition _check_type_consistency (df : DataFrame) : Py.result (Py.dict string) :=
  check_columns [] (columns df).

End TypeConsistency.

(** The quantities computed for one column in [_detect_outliers]. *)
Record IQRStats : Type := {
  q1 : Qc;
  q3 : Qc;
  iqr : Qc;
  lower : Qc;
  upper : Qc;
  outlier_count : nat;
}.

Definition is_outlier (lower upper x : Qc) : bool :=
  bool_decide (x < lower)%Qc || bool_decide (upper < x)%Qc.

Definition iqr_stats (self : DataQualityValidationAgent) (series : list Qc) : IQRStats :=
  let q1 := quantile series 1 4 in
  let q3 := quantile series 3 4 in
  let iqr := (q3 - q1)%Qc in
  let lower := (q1 - outlier_iqr_multiplier self * iqr)%Qc in
  let upper := (q3 + outlier_iqr_multiplier self * iqr)%Qc in
  let count := length (filter (fun x => is_outlier lower upper x = true) series) in
  {| q1 := q1; q3 := q3; iqr := iqr; lower := lower; upper := upper;
     outlier_count := count |}.

(** One iteration of the loop of [_detect_outliers]. *)
Definition detect_column (self : DataQualityValidationAgent) (outliers : Py.dict Anomaly)
    (col : string) (column : Series) : Py.dict Anomaly :=
  let series := dropna_numbers column in
  match series with
  | [] => outliers
  | _ :: _ =>
      let count := outlier_count (iqr_stats self series) in
      if (0 <? count)%nat
      then Py.dict_set outliers col
             {| method := "IQR";
                count := count;
                percentage :=
                  Py.round (qz (Z.of_nat count) / qz (Z.of_nat (length series)))%Qc 4 |}
      else outliers
  end.

Definition _detect_outliers (self : DataQualityValidationAgent) (df : DataFrame)
  : Py.dict Anomaly :=
  let numeric_cols := filter (fun c => is_number_dtype (snd c) = true) (columns df) in
  fold_left (fun outliers '(col, column) => detect_column self outliers col column)
    numeric_cols [].

Definition blocking_message (col : string) (pct : Qc) : string :=
  "Column '" +:+ col +:+ "' missing " +:+ Py.format_1f (pct * qz 100)%Qc +:+ "% of values".

Definition _compute_severity (self : DataQualityValidationAgent) (report : Diagnostics)
  : string * list string :=
  let blocking_issues :=
    fold_left
      (fun acc '(col, pct) =>
         if bool_decide (missing_critical_threshold self ≤ pct)%Qc
         then (acc ++ [blocking_message col pct])%list
         else acc)
      (d_missing_values report) [] in
  if Py.truthy blocking_issues then ("HIGH", blocking_issues)
  else if Py.truthy (d_type_issues report) || Py.truthy (d_anomalies report)
  then ("MEDIUM", [])
  else ("LOW", []).

Definition _empty_dataset_report : Report := {|
  dataset_summary := {| num_rows := 0; num_columns := 0; summary_columns := [] |};
  missing_values := [];
  type_issues := [];
  anomalies := [];
  severity := "HIGH";
  blocking_issues := ["Dataset is empty"];
|}.

Definition run `{NumericText} (self : DataQualityValidationAgent) (df : DataFrame)
  : Py.result Report :=
  if empty df then Py.Ret _empty_dataset_report
  else
    issues ← _check_type_consistency df;
    let report := {|
      d_dataset_summary := _dataset_summary df;
      d_missing_values := _check_missing_values df;
      d_type_issues := issues;
      d_anomalies := _detect_outliers self df;
    |} in
    let '(severity, blocking_issues) := _compute_severity self report in
    Py.Ret {|
      dataset_summary := d_dataset_summary report;
      missing_values := d_missing_values report;
      type_issues := d_type_issues report;
      anomalies := d_anomalies report;
      severity := severity;
      blocking_issues := blocking_issues;
    |}.

End DataQuality.

(** ** AuditTrail.py *)

Module AuditTrail.

Section Log.
(** JSON values carried by [inputs] and [outputs]. *)
Variable json : Type.

Record LogEntry : Type := {
  timestamp : string;
  agent_name : string;
  action_type : string;
  inputs : option json;
  outputs : option json;
  notes : option string;
}.

(** The log file: absent, or holding a JSON list of entries. *)
Definition LogFile : Type := option (list LogEntry).

(** [AuditTrailAgent(log_file)]: the file is created with [[]] when absent. *)
Definition __init__ (file : LogFile) : list LogEntry :=
  match file with
  | Some data => data
  | None => []
  end.

(** [log_action]; [now] is the reading of [datetime.now().isoformat()]. *)
Definition log_action (now : string) (agent_name action_type : string)
    (inputs outputs : option json) (notes : option string)
    (data : list LogEntry) : list LogEntry :=
  let log_entry := {|
    timestamp := now;
    agent_name := agent_name;
    action_type := action_type;
    inputs := inputs;
    outputs := outputs;
    notes := notes;
  |} in
  (data ++ [log_entry])%list.

Definition query_logs (agent_name' action_type' : option string)
    (data : list LogEntry) : list LogEntry :=
  let data :=
    if Py.truthy_str agent_name'
    then filter (fun d => Some (agent_name d) = agent_name') data
    else data in
  let data :=
    if Py.truthy_str action_type'
    then filter (fun d => Some (action_type d) = action_type') data
    else data in
  data.

(** A sequence of [log_action] calls, each given as the entry it records. *)
Definition log_all (calls : list LogEntry) (data : list LogEntry) : list LogEntry :=
  fold_left
    (fun data c =>
       log_action (timestamp c) (agent_name c) (action_type c)
         (inputs c) (outputs c) (notes c) data)
    calls data.

End Log.

Arguments timestamp {json} _.
Arguments agent_name {json} _.
Arguments action_type {json} _.
Arguments inputs {json} _.
Arguments outputs {json} _.
Arguments notes {json} _.
Arguments __init__ {json} _.
Arguments log_action {json} _ _ _ _ _ _ _.
Arguments query_logs {json} _ _ _.
Arguments log_all {json} _ _.

End AuditTrail.

(** ** agents/data_quality_validation.py: formatting *)

Module Reporter.
Import DataQuality.

Record Status : Type := {
  status_severity : string;
  status_blocking : bool;
  status_summary : string;
}.

Record DatasetOverview : Type := {
  overview_rows : nat;
  overview_columns : nat;
  overview_column_names : list string;
}.

Record MissingBlock : Type := {
  columns_with_missing : nat;
  missing_details : Py.dict Qc;
}.

Record TypeBlock : Type := {
  type_count : nat;
  type_details : Py.dict string;
}.

Record DataQualityBlock : Type := {
  quality_missing_values : MissingBlock;
  quality_type_issues : TypeBlock;
}.

Record AnomalyBlock : Type := {
  anomaly_method : string;
  anomaly_summary : string;
  anomaly_details : Py.dict Anomaly;
}.

Record FormattedReport : Type := {
  status : Status;
  dataset_overview : DatasetOverview;
  data_quality : DataQualityBlock;
  anomaly_analysis : AnomalyBlock;
  formatted_blocking_issues : list string;
  recommendations : list string;
}.

(** The methods below take [self] and never read it; it is left out. *)

Definition _severity_summary (report : Report) : string :=
  if decide (severity report = "HIGH")
  then "Critical data quality issues detected. Dataset is not safe for modeling."
  else if decide (severity report = "MEDIUM")
  then "Dataset is usable with minor anomalies that should be reviewed."
  else "Dataset meets all quality checks.".

Definition _format_status (report : Report) : Status := {|
  status_severity := severity report;
  status_blocking := (0 <? length (blocking_issues report))%nat;
  status_summary := _severity_summary report;
|}.

Definition _format_dataset_overview (report : Report) : DatasetOverview :=
  let summary := dataset_summary report in
  {| overview_rows := num_rows summary;
     overview_columns := num_columns summary;
     overview_column_names := summary_columns summary |}.

Definition _format_data_quality (report : Report) : DataQualityBlock := {|
  quality_missing_values := {|
    columns_with_missing := length (missing_values report);
    missing_details := missing_values report;
  |};
  quality_type_issues := {|
    type_count := length (type_issues report);
    type_details := type_issues report;
  |};
|}.

Definition _format_anomalies (report : Report) : AnomalyBlock := {|
  anomaly_method := "IQR";
  anomaly_summary :=
    if Py.truthy (anomalies report)
    then "Minor statistical outliers detected"
    else "No anomalies detected";
  anomaly_details := anomalies report;
|}.

Definition _generate_recommendations (report : Report) : list string :=
  let recommendations : list string := [] in
  let recommendations :=
    if Py.truthy (blocking_issues report)
    then (recommendations ++ ["Resolve blocking data quality issues before modeling."])%list
    else (recommendations ++ ["Proceed with downstream modeling."])%list in
  let recommendations :=
    if Py.truthy (anomalies report)
    then (recommendations ++
            ["Review anomaly-prone numerical features for business validity."])%list
    else recommendations in
  let recommendations :=
    if negb (Py.truthy (missing_values report))
    then (recommendations ++ ["No missing-value preprocessing required."])%list
    else recommendations in
  let recommendations :=
    if negb (Py.truthy (type_issues report))
    then (recommendations ++ ["No schema or type corrections needed."])%list
    else recommendations in
  recommendations.

Definition format_report (raw_report : Report) : FormattedReport := {|
  status := _format_status raw_report;
  dataset_overview := _format_dataset_overview raw_report;
  data_quality := _format_data_quality raw_report;
  anomaly_analysis := _format_anomalies raw_report;
  formatted_blocking_issues := blocking_issues raw_report;
  recommendations := _generate_recommendations raw_report;
|}.

End Reporter.

(** ** The specification's wording, as definitions to compare the code with *)

Module Spec.
Import Pandas DataQuality.

(** Columns of [missing_values], in order, whose fraction reaches the
    critical threshold, each rendered as its blocking message. *)
Definition spec_blocking (threshold : Qc) (missing : list (string * Qc)) : list string :=
  map (fun cp => blocking_message (fst cp) (snd cp))
    (filter (fun cp => (threshold ≤ snd cp)%Qc) missing).

(** Severity derivation with strict precedence. *)
Definition spec_severity (threshold : Qc) (missing : Py.dict Qc)
    (issues : Py.dict string) (anoms : Py.dict Anomaly) : string * list string :=
  match spec_blocking threshold missing with
  | (_ :: _) as blocking => ("HIGH", blocking)
  | [] =>
      match issues, anoms with
      | [], [] => ("LOW", [])
      | _, _ => ("MEDIUM", [])
      end
  end.

(** Severity read off the other fields of a finished report. *)
Definition severity_of_fields (issues : Py.dict string) (anoms : Py.dict Anomaly)
    (blocking : list string) : string :=
  match blocking with
  | _ :: _ => "HIGH"
  | [] =>
      match issues, anoms with
      | [], [] => "LOW"
      | _, _ => "MEDIUM"
      end
  end.

(** Severity read off the four diagnostic fields alone, for an agent with the
    given critical threshold. *)
Definition severity_of_diagnostics (threshold : Qc) (summary : Summary)
    (missing : Py.dict Qc) (issues : Py.dict string) (anoms : Py.dict Anomaly) : string :=
  if (num_rows summary =? 0)%nat then "HIGH"
  else fst (spec_severity threshold missing issues anoms).

(** The flag the type-consistency check gives a column, if any. *)
Definition column_flag `{NumericText} (series : Series) : option string :=
  if is_numeric_dtype series then
    if existsb non_numeric (cells series)
    then Some "Numeric column contains non-numeric values"
    else None
  else if is_object_dtype series then
    match to_numeric (dropna series) with
    | Py.Ret _ => None
    | Py.Raise _ =>
        if (1 <? nunique_types (dropna series))%nat
        then Some "Mixed data types in column"
        else None
    end
  else None.

(** The effect of one column on the dict of type issues. *)
Definition set_flag `{NumericText} (issues : Py.dict string) (c : string * Series)
  : Py.dict string :=
  match column_flag (snd c) with
  | Some message => Py.dict_set issues (fst c) message
  | None => issues
  end.

(** The dict of type issues of a frame. *)
Definition flagged_issues `{NumericText} (df : DataFrame) : Py.dict string :=
  fold_left set_flag (columns df) [].

(** The four diagnostics of a frame that is not empty. *)
Definition diagnostics `{NumericText} (self : DataQualityValidationAgent)
    (df : DataFrame) : Diagnostics := {|
  d_dataset_summary := _dataset_summary df;
  d_missing_values := _check_missing_values df;
  d_type_issues := flagged_issues df;
  d_anomalies := _detect_outliers self df;
|}.

(** Two columns of the same dtype holding the same cells in another order. *)
Inductive series_permuted : Series -> Series -> Prop :=
| perm_int64 v w : v ≡ₚ w -> series_permuted (Int64 v) (Int64 w)
| perm_float64 v w : v ≡ₚ w -> series_permuted (Float64 v) (Float64 w)
| perm_boolean v w : v ≡ₚ w -> series_permuted (Boolean v) (Boolean w)
| perm_object v w : v ≡ₚ w -> series_permuted (Object v) (Object w)
| perm_extension v w : v ≡ₚ w -> series_permuted (Extension v) (Extension w).

(** Two frames with the same labels, each column of one holding the cells of
    the same column of the other in another order, as after reordering rows. *)
Definition rows_permuted (df1 df2 : DataFrame) : Prop :=
  index_len df1 = index_len df2 /\
  Forall2 (fun c1 c2 => fst c1 = fst c2 /\ series_permuted (snd c1) (snd c2))
    (columns df1) (columns df2).

(** A recogniser of plain decimal digit strings, to run examples with. *)
Fixpoint digits_value (s : string) (acc : Z) : option Z :=
  match s with
  | EmptyString => Some acc
  | String c s' =>
      let n := Ascii.nat_of_ascii c in
      if ((48 <=? n) && (n <=? 57))%nat
      then digits_value s' (10 * acc + Z.of_nat (n - 48))%Z
      else None
  end.

Definition decimal_digits : NumericText :=
  fun s =>
    match s with
    | EmptyString => None
    | _ => qz <$> digits_value s 0
    end.

(** The entry [_check_missing_values] records for a column, if any. *)
Definition missing_entry (c : string * Series) : option Qc :=
  if any_null (snd c) then Some (Py.round (mean_null (snd c)) 4) else None.

(** The entry [_detect_outliers] records for a column of a numeric dtype, if
    any. *)
Definition anomaly_entry (self : DataQualityValidationAgent) (c : string * Series)
  : option Anomaly :=
  match dropna_numbers (snd c) with
  | [] => None
  | (_ :: _) as series =>
      let count := outlier_count (iqr_stats self series) in
      if (0 <? count)%nat
      then Some {| method := "IQR"; count := count;
                   percentage :=
                     Py.round (qz (Z.of_nat count) / qz (Z.of_nat (length series)))%Qc 4 |}
      else None
  end.

(** Reading a raw report back from its formatted rendering. *)
Definition unformat (f : Reporter.FormattedReport) : Report := {|
  dataset_summary := {|
    num_rows := Reporter.overview_rows (Reporter.dataset_overview f);
    num_columns := Reporter.overview_columns (Reporter.dataset_overview f);
    summary_columns := Reporter.overview_column_names (Reporter.dataset_overview f);
  |};
  missing_values :=
    Reporter.missing_details (Reporter.quality_missing_values (Reporter.data_quality f));
  type_issues :=
    Reporter.type_details (Reporter.quality_type_issues (Reporter.data_quality f));
  anomalies := Reporter.anomaly_details (Reporter.anomaly_analysis f);
  severity := Reporter.status_severity (Reporter.status f);
  blocking_issues := Reporter.formatted_blocking_issues f;
|}.

(** A column every cell of which is missing. *)
Definition all_missing (series : Series) : Prop :=
  Forall (fun x => isnull x = true) (cells series).

(** A column of a numeric dtype whose non-missing cells all hold [c]. *)
Definition constant_column (series : Series) (c : Qc) : Prop :=
  Forall (fun x => x = c) (dropna_numbers series).


End Spec.

(** ** Concrete inputs *)

Module Examples.
Import Pandas DataQuality.

(** One row, no column: [pd.DataFrame(index=[0])]. *)
Definition df_no_columns : DataFrame := {| index_len := 1; columns := [] |}.

(** No row, two declared columns. *)
Definition df_no_rows : DataFrame :=
  {| index_len := 0; columns := [("age", Float64 []); ("city", Object [])] |}.

(** One object column holding a string and an integer. *)
Definition df_mixed : DataFrame :=
  {| index_len := 2; columns := [("city", Object [PyStr "a"; PyInt 1])] |}.

(** Ten rows, [age] missing in four of them. *)
Definition df_age_city : DataFrame := {|
  index_len := 10;
  columns :=
    [("age", Float64 ([None; None; None; None] ++
                      map (fun z => Some (qz z)) [31; 45; 27; 52; 38; 60]%Z));
     ("city", Object (map PyStr ["a"; "b"; "c"; "d"; "e"; "f"; "g"; "h"; "i"; "j"]))]
|}.

(** Three rows, and the same rows in another order. *)
Definition df_rows : DataFrame := {|
  index_len := 3;
  columns :=
    [("score", Int64 [Some 3; None; Some 1]%Z);
     ("tag", Object [PyStr "c"; PyStr "n"; PyStr "a"])]
|}.

Definition df_rows_reordered : DataFrame := {|
  index_len := 3;
  columns :=
    [("score", Int64 [Some 1; Some 3; None]%Z);
     ("tag", Object [PyStr "a"; PyStr "c"; PyStr "n"])]
|}.

Definition one_to_nine_and_1000 : list Z := [1; 2; 3; 4; 5; 6; 7; 8; 9; 1000]%Z.

Definition agent_warn_5 : DataQualityValidationAgent := {|
  missing_warn_threshold := qfrac 5 100;
  missing_critical_threshold := qfrac 30 100;
  outlier_iqr_multiplier := qfrac 15 10;
|}.

(** Entries of an audit log with no payload. *)
Definition entry (json : Type) (now name action : string) : AuditTrail.LogEntry json := {|
  AuditTrail.timestamp := now;
  AuditTrail.agent_name := name;
  AuditTrail.action_type := action;
  AuditTrail.inputs := None;
  AuditTrail.outputs := None;
  AuditTrail.notes := None;
|}.

Definition three_calls : list (AuditTrail.LogEntry unit) :=
  [entry unit "t1" "X" "summary"; entry unit "t2" "Y" "validation";
   entry unit "t3" "X" "validation"].

(** Four rows: a number column with an all-missing neighbour and a text column. *)
Definition df_sparse : DataFrame := {|
  index_len := 4;
  columns :=
    [("id", Int64 [Some 7; Some 7; Some 7; Some 7]%Z);
     ("note", Float64 [None; None; None; None]);
     ("name", Object [PyStr "a"; PyStr "b"; PyNull; PyStr "d"])]
|}.

Definition agent_strict : DataQualityValidationAgent := {|
  missing_warn_threshold := qfrac 10 100;
  missing_critical_threshold := qfrac 20 100;
  outlier_iqr_multiplier := qfrac 15 10;
|}.

(** The ten values of the worked example as the only column. *)
Definition df_outlier : DataFrame :=
  {| index_len := 10; columns := [("col", Int64 (map Some one_to_nine_and_1000))] |}.

Definition agent_wide : DataQualityValidationAgent := {|
  missing_warn_threshold := qfrac 10 100;
  missing_critical_threshold := qfrac 30 100;
  outlier_iqr_multiplier := qfrac 30 10;
|}.

End Examples.

(** * Properties *)

(** ** Dictionaries *)

Section DictFacts.
Context {V : Type}.
Implicit Types (d : Py.dict V) (k : string) (v : V).

Lemma dict_get_set d k v k' :
  Py.dict_get (Py.dict_set d k v) k' =
  if decide (k = k') then Some v else Py.dict_get d k'.
Proof.
  induction d as [|[k0 v0] d IH]; simpl.
  - repeat case_decide; congruence.
  - destruct (decide (k0 = k)) as [->|Hne]; simpl.
    + repeat case_decide; congruence.
    + rewrite IH. repeat case_decide; congruence.
Qed.

Lemma keys_dict_set d k v :
  Py.keys (Py.dict_set d k v) =
  if decide (k ∈ Py.keys d) then Py.keys d else (Py.keys d ++ [k])%list.
Proof.
  unfold Py.keys. induction d as [|[k0 v0] d IH]; simpl.
  - destruct (decide (k ∈ [])) as [Hin|Hin]; [inversion Hin|done].
  - destruct (decide (k0 = k)) as [->|Hne]; simpl.
    + rewrite decide_True by constructor. done.
    + rewrite IH. destruct (decide (k ∈ map fst d)) as [Hin|Hnin].
      * rewrite decide_True by (by constructor). done.
      * rewrite decide_False; [done|].
        intros Hin. apply elem_of_cons in Hin. destruct Hin as [Heq|Hin]; congruence.
Qed.


Lemma dict_set_truthy d k v : Py.truthy (Py.dict_set d k v) = true.
Proof. destruct d as [|[k0 v0] d]; simpl; [done|]. by case_decide. Qed.

Lemma dict_get_In d k v : Py.dict_get d k = Some v -> In (k, v) d.
Proof.
  induction d as [|[k0 v0] d IH]; simpl; [done|].
  case_decide as Hk.
  - intros [= ->]. left. by rewrite Hk.
  - intros Hg. right. by apply IH.
Qed.


End DictFacts.

(** ** Type consistency: the check returns, and what it flags *)

Section TypeFacts.
Import Pandas DataQuality Spec.
Context `{NumericText}.

Lemma count_positive_existsb {A} (f : A -> bool) (l : list A) :
  (0 <? length (filter (fun x => f x = true) l))%nat = existsb f l.
Proof.
  induction l as [|x l IH]; simpl; [done|].
  rewrite filter_cons. destruct (decide (f x = true)) as [Hx|Hx].
  - by rewrite Hx.
  - apply not_true_is_false in Hx. by rewrite Hx.
Qed.

Lemma check_column_flag issues col series :
  check_column issues col series = Py.Ret (set_flag issues (col, series)).
Proof.
  unfold check_column, set_flag, column_flag; simpl.
  destruct (is_numeric_dtype series).
  - rewrite count_positive_existsb. by destruct (existsb _ _).
  - destruct (is_object_dtype series); [|done].
    destruct (to_numeric (dropna series)) as [qs|e]; simpl; [done|].
    by destruct (1 <? _)%nat.
Qed.

Lemma check_columns_fold issues cols :
  check_columns issues cols = Py.Ret (fold_left set_flag cols issues).
Proof.
  revert issues. induction cols as [|[col series] cols IH]; intros issues; simpl; [done|].
  rewrite check_column_flag. simpl. apply IH.
Qed.

Lemma type_consistency_returns df :
  _check_type_consistency df = Py.Ret (flagged_issues df).
Proof. apply check_columns_fold. Qed.

Lemma run_empty self df :
  empty df = true -> run self df = Py.Ret _empty_dataset_report.
Proof. intros He. unfold run. by rewrite He. Qed.

Lemma run_nonempty self df :
  empty df = false ->
  run self df = Py.Ret {|
    dataset_summary := _dataset_summary df;
    missing_values := _check_missing_values df;
    type_issues := flagged_issues df;
    anomalies := _detect_outliers self df;
    severity := fst (_compute_severity self (diagnostics self df));
    blocking_issues := snd (_compute_severity self (diagnostics self df));
  |}.
Proof.
  intros He. unfold run. rewrite He, type_consistency_returns. simpl.
  fold (diagnostics self df). by destruct (_compute_severity _ _).
Qed.

(** A numeric dtype holds nothing that the lambda of the numeric branch
    counts. *)
Lemma numeric_cells_pass series :
  is_numeric_dtype series = true -> existsb non_numeric (cells series) = false.
Proof.
  destruct series as [v|v|v|v|v]; simpl; try done; intros _;
    induction v as [|[a|] v IH]; simpl; done.
Qed.




Lemma flagged_skip issues cols col :
  col ∉ map fst cols ->
  Py.dict_get (fold_left set_flag cols issues) col = Py.dict_get issues col.
Proof.
  revert issues. induction cols as [|c cols IH]; intros issues Hc; simpl; [done|].
  simpl in Hc. apply not_elem_of_cons in Hc as [Hne Hc].
  rewrite IH by done. unfold set_flag. destruct (column_flag (snd c)); [|done].
  rewrite dict_get_set. by rewrite decide_False.
Qed.

Lemma flagged_lookup issues cols col series :
  NoDup (map fst cols) -> In (col, series) cols ->
  Py.dict_get issues col = None ->
  Py.dict_get (fold_left set_flag cols issues) col = column_flag series.
Proof.
  revert issues. induction cols as [|c cols IH]; intros issues Hnd Hin Hi; [done|].
  simpl in *. apply NoDup_cons in Hnd as [Hc Hnd]. destruct Hin as [->|Hin].
  - rewrite flagged_skip by done. unfold set_flag; simpl.
    destruct (column_flag series); [|done]. rewrite dict_get_set. by rewrite decide_True.
  - apply IH; [done..|]. unfold set_flag.
    destruct (column_flag (snd c)); [|done]. rewrite dict_get_set.
    rewrite decide_False; [done|]. intros Heq. apply Hc. rewrite Heq.
    apply list_elem_of_In. apply (in_map fst) in Hin. exact Hin.
Qed.

End TypeFacts.

(** ** Severity *)

Section SeverityFacts.
Import Pandas DataQuality Spec.

Lemma blocking_fold threshold (missing : Py.dict Qc) (acc : list string) :
  fold_left
    (fun acc '(col, pct) =>
       if bool_decide (threshold ≤ pct)%Qc
       then (acc ++ [blocking_message col pct])%list
       else acc)
    missing acc
  = (acc ++ spec_blocking threshold missing)%list.
Proof.
  unfold spec_blocking. revert acc.
  induction missing as [|[col pct] missing IH]; intros acc.
  - simpl. by rewrite app_nil_r.
  - rewrite filter_cons. cbn [fold_left snd]. rewrite IH.
    destruct (decide (threshold ≤ pct)%Qc) as [Hle|Hgt].
    + rewrite bool_decide_eq_true_2 by done. by rewrite <- app_assoc.
    + by rewrite bool_decide_eq_false_2 by done.
Qed.

Lemma compute_severity_spec self report :
  _compute_severity self report =
  spec_severity (missing_critical_threshold self) (d_missing_values report)
    (d_type_issues report) (d_anomalies report).
Proof.
  unfold _compute_severity, spec_severity. rewrite blocking_fold. simpl.
  destruct (spec_blocking _ _); simpl; [|done].
  destruct (d_type_issues report), (d_anomalies report); done.
Qed.

Lemma spec_severity_fields threshold missing issues anoms :
  fst (spec_severity threshold missing issues anoms) =
  severity_of_fields issues anoms (snd (spec_severity threshold missing issues anoms)).
Proof.
  unfold spec_severity, severity_of_fields.
  destruct (spec_blocking _ _); simpl; [|done].
  destruct issues, anoms; done.
Qed.

Lemma spec_severity_blocking threshold missing issues anoms :
  snd (spec_severity threshold missing issues anoms) <> [] <->
  fst (spec_severity threshold missing issues anoms) = "HIGH".
Proof.
  unfold spec_severity. destruct (spec_blocking _ _); simpl.
  - destruct issues, anoms; simpl; split; done.
  - split; done.
Qed.

Lemma spec_severity_range threshold missing issues anoms :
  let s := fst (spec_severity threshold missing issues anoms) in
  s = "LOW" \/ s = "MEDIUM" \/ s = "HIGH".
Proof.
  unfold spec_severity. destruct (spec_blocking _ _); simpl.
  - destruct issues, anoms; simpl; auto.
  - auto.
Qed.

Lemma empty_false df :
  empty df = false <-> (1 <= index_len df)%nat /\ (1 <= length (columns df))%nat.
Proof.
  unfold empty. rewrite orb_false_iff, !Nat.eqb_neq. lia.
Qed.

End SeverityFacts.

(** ** The claims about [run] *)

Section RunClaims.
Import Pandas DataQuality Spec Examples.
Context `{NumericText}.


(** C2: for every dataset with zero rows, whatever columns it declares,
    [run] returns the fixed empty-dataset report. *)
Theorem C2_empty_dataset_report (self : DataQualityValidationAgent) (df : DataFrame) :
  index_len df = 0%nat ->
  run self df = Py.Ret {|
    dataset_summary := {| num_rows := 0; num_columns := 0; summary_columns := [] |};
    missing_values := [];
    type_issues := [];
    anomalies := [];
    severity := "HIGH";
    blocking_issues := ["Dataset is empty"];
  |}.
Proof.
  intros Hrows. apply run_empty. unfold empty. by rewrite Hrows.
Qed.

(** C3: every report returned by [run] has a non-empty [blocking_issues]
    exactly when its severity is HIGH; its severity is one of LOW, MEDIUM and
    HIGH, and is a function of its other fields. *)
Theorem C3_severity_invariant (self : DataQualityValidationAgent) (df : DataFrame) :
  exists r,
    run self df = Py.Ret r /\
    (blocking_issues r <> [] <-> severity r = "HIGH") /\
    (severity r = "LOW" \/ severity r = "MEDIUM" \/ severity r = "HIGH") /\
    severity r = severity_of_fields (type_issues r) (anomalies r) (blocking_issues r) /\
    severity r =
      severity_of_diagnostics (missing_critical_threshold self)
        (dataset_summary r) (missing_values r) (type_issues r) (anomalies r).
Proof.
  destruct (empty df) eqn:He.
  - eexists. split; [by apply run_empty|]. simpl.
    split_and!; [split; done|auto|done|done].
  - eexists. split; [by apply run_nonempty|]. simpl.
    rewrite compute_severity_spec. simpl. split_and!.
    + apply spec_severity_blocking.
    + apply spec_severity_range.
    + apply spec_severity_fields.
    + unfold severity_of_diagnostics; simpl.
      apply empty_false in He as [Hrows _].
      destruct (index_len df); [lia|done].
Qed.

(** C7: two agents that differ only in the missing-warn threshold return
    the same report on every dataset. *)
Theorem C7_warn_threshold_unused (a1 a2 : DataQualityValidationAgent) (df : DataFrame) :
  missing_critical_threshold a1 = missing_critical_threshold a2 ->
  outlier_iqr_multiplier a1 = outlier_iqr_multiplier a2 ->
  run a1 df = run a2 df.
Proof.
  intros Hcrit Hmult. unfold run. destruct (empty df); [done|].
  rewrite type_consistency_returns. simpl.
  assert (_detect_outliers a1 df = _detect_outliers a2 df) as ->.
  { unfold _detect_outliers, detect_column, iqr_stats. by rewrite Hmult. }
  unfold _compute_severity. simpl. by rewrite Hcrit.
Qed.



End RunClaims.



(** The worked example of the specification: [age] missing in 4 of 10 rows. *)
Example age_city_report :
  exists r,
    DataQuality.run (H := Spec.decimal_digits) DataQuality.default_agent
      Examples.df_age_city = Py.Ret r /\
    Py.keys (DataQuality.missing_values r) = ["age"] /\
    DataQuality.severity r = "HIGH" /\
    DataQuality.blocking_issues r = ["Column 'age' missing 40.0% of values"].
Proof. eexists. split; [reflexivity|]. vm_compute. done. Qed.

Lemma C2_empty_dataset_report_witness :
  Pandas.index_len Examples.df_no_rows = 0%nat /\
  DataQuality.run (H := Spec.decimal_digits) DataQuality.default_agent
    Examples.df_no_rows = Py.Ret DataQuality._empty_dataset_report.
Proof.
  split; [reflexivity|].
  apply (@C2_empty_dataset_report Spec.decimal_digits DataQuality.default_agent
           Examples.df_no_rows). reflexivity.
Defined.

Lemma C7_warn_threshold_unused_witness :
  DataQuality.missing_warn_threshold DataQuality.default_agent <>
  DataQuality.missing_warn_threshold Examples.agent_warn_5 /\
  DataQuality.run (H := Spec.decimal_digits) DataQuality.default_agent
    Examples.df_age_city =
  DataQuality.run (H := Spec.decimal_digits) Examples.agent_warn_5
    Examples.df_age_city.
Proof.
  split; [discriminate|].
  apply (@C7_warn_threshold_unused Spec.decimal_digits DataQuality.default_agent
           Examples.agent_warn_5 Examples.df_age_city); reflexivity.
Defined.



(** ** Outlier detection *)

Section OutlierFacts.
Import Pandas DataQuality Spec Examples.

Lemma merge_sort_perm (xs ys : list Qc) :
  xs ≡ₚ ys -> merge_sort Qcle xs = merge_sort Qcle ys.
Proof.
  intros Hp. apply (Sorted_unique Qcle).
  - apply Sorted_merge_sort, _.
  - apply Sorted_merge_sort, _.
  - by rewrite !merge_sort_Permutation.
Qed.

Lemma quantile_perm (xs ys : list Qc) num den :
  xs ≡ₚ ys -> quantile xs num den = quantile ys num den.
Proof.
  intros Hp. unfold quantile.
  by rewrite (merge_sort_perm xs ys Hp), (Permutation_length Hp).
Qed.

Lemma iqr_stats_perm self (xs ys : list Qc) :
  xs ≡ₚ ys -> iqr_stats self xs = iqr_stats self ys.
Proof.
  intros Hp. unfold iqr_stats.
  rewrite !(quantile_perm xs ys) by done.
  f_equal. apply Permutation_length. by apply filter_Permutation.
Qed.

Lemma dropna_numbers_perm c1 c2 :
  series_permuted c1 c2 -> dropna_numbers c1 ≡ₚ dropna_numbers c2.
Proof.
  intros [v w Hp|v w Hp|v w Hp|v w Hp|v w Hp]; simpl; try done;
    by apply omap_Permutation.
Qed.

Lemma is_number_dtype_perm c1 c2 :
  series_permuted c1 c2 -> is_number_dtype c1 = is_number_dtype c2.
Proof. by intros []. Qed.

Lemma detect_column_perm self outliers col c1 c2 :
  series_permuted c1 c2 ->
  detect_column self outliers col c1 = detect_column self outliers col c2.
Proof.
  intros Hp. apply dropna_numbers_perm in Hp. unfold detect_column.
  destruct (dropna_numbers c1) as [|x xs] eqn:H1, (dropna_numbers c2) as [|y ys] eqn:H2.
  - done.
  - by apply Permutation_nil_l in Hp.
  - by apply Permutation_nil_r in Hp.
  - by rewrite (iqr_stats_perm self _ _ Hp), (Permutation_length Hp).
Qed.

Lemma detect_outliers_fold_perm self cols1 cols2 outliers :
  Forall2 (fun c1 c2 => fst c1 = fst c2 /\ series_permuted (snd c1) (snd c2))
    cols1 cols2 ->
  fold_left (fun outliers '(col, column) => detect_column self outliers col column)
    (filter (fun c => is_number_dtype (snd c) = true) cols1) outliers =
  fold_left (fun outliers '(col, column) => detect_column self outliers col column)
    (filter (fun c => is_number_dtype (snd c) = true) cols2) outliers.
Proof.
  intros Hcols. revert outliers.
  induction Hcols as [|[n1 c1] [n2 c2] cols1 cols2 [Hn Hp] _ IH]; intros outliers; [done|].
  simpl in Hn, Hp. subst n2. rewrite !filter_cons. simpl.
  rewrite <- (is_number_dtype_perm c1 c2 Hp).
  destruct (decide (is_number_dtype c1 = true)); [|apply IH].
  simpl. rewrite (detect_column_perm self outliers n1 c1 c2 Hp). apply IH.
Qed.

(** C4: on the values 1..9 and 1000, with the default multiplier 1.5,
    detection gets Q1 = 3.25, Q3 = 7.75, IQR = 4.5 and upper bound 14.5, finds
    1000 as the only value strictly outside the bounds, and records
    {method: "IQR", count: 1, percentage: 0.1} for the column. *)
Theorem C4_iqr_worked_example (name : string) :
  let column := Int64 (map Some one_to_nine_and_1000) in
  let st := iqr_stats default_agent (dropna_numbers column) in
  q1 st = qfrac 325 100 /\
  q3 st = qfrac 775 100 /\
  iqr st = qfrac 45 10 /\
  upper st = qfrac 145 10 /\
  filter (fun x => is_outlier (lower st) (upper st) x = true) (dropna_numbers column)
    = [qz 1000] /\
  outlier_count st = 1%nat /\
  _detect_outliers default_agent {| index_len := 10; columns := [(name, column)] |}
    = [(name, {| method := "IQR"; count := 1; percentage := qfrac 1 10 |})].
Proof.
  intros column st.
  assert (st = {| q1 := qfrac 325 100; q3 := qfrac 775 100; iqr := qfrac 45 10;
                  lower := qfrac (-35) 10; upper := qfrac 145 10;
                  outlier_count := 1 |}) as Hst.
  { unfold st, iqr_stats.
    f_equal; first [apply Qc_is_canon; vm_compute; reflexivity | vm_compute; reflexivity]. }
  assert (_detect_outliers default_agent {| index_len := 10; columns := [(name, column)] |}
          = detect_column default_agent [] name column) as ->.
  { unfold _detect_outliers. cbn [columns]. rewrite filter_cons. cbn [snd].
    rewrite decide_True by done. by rewrite filter_nil. }
  unfold detect_column. fold st. clearbody st. subst st. cbn [q1 q3 iqr lower upper outlier_count].
  split_and!; try reflexivity.
  vm_compute. do 3 f_equal. apply Qc_is_canon. reflexivity.
Qed.

(** C5: reordering the rows of a numeric column changes none of Q1, Q3, the
    bounds and the outlier count, nor what the column contributes to
    [anomalies]; on frames whose rows are reordered [_detect_outliers] returns
    the same dict.  Recomputing on the same column is the case of the identity
    reordering. *)
Theorem C5_outliers_permutation_invariant (self : DataQualityValidationAgent)
    (df1 df2 : DataFrame) :
  rows_permuted df1 df2 ->
  Forall2
    (fun c1 c2 =>
       iqr_stats self (dropna_numbers (snd c1)) = iqr_stats self (dropna_numbers (snd c2)) /\
       forall outliers col,
         detect_column self outliers col (snd c1) = detect_column self outliers col (snd c2))
    (columns df1) (columns df2) /\
  _detect_outliers self df1 = _detect_outliers self df2 /\
  _detect_outliers self df1 = _detect_outliers self df1.
Proof.
  intros [_ Hcols]. split; [|split].
  - eapply Forall2_impl; [exact Hcols|]. intros c1 c2 [_ Hp]. split.
    + apply iqr_stats_perm, dropna_numbers_perm, Hp.
    + intros outliers col. apply detect_column_perm, Hp.
  - unfold _detect_outliers. apply detect_outliers_fold_perm, Hcols.
  - reflexivity.
Qed.

End OutlierFacts.

Lemma C5_outliers_permutation_invariant_witness :
  Spec.rows_permuted Examples.df_rows Examples.df_rows_reordered /\
  DataQuality._detect_outliers DataQuality.default_agent Examples.df_rows =
  DataQuality._detect_outliers DataQuality.default_agent Examples.df_rows_reordered.
Proof.
  assert (Spec.rows_permuted Examples.df_rows Examples.df_rows_reordered) as Hrows.
  { split; [reflexivity|]. simpl. repeat constructor; simpl.
    - etransitivity; [apply perm_skip, perm_swap|apply perm_swap].
    - etransitivity; [apply perm_skip, perm_swap|apply perm_swap]. }
  split; [exact Hrows|].
  exact (proj1 (proj2 (C5_outliers_permutation_invariant DataQuality.default_agent
                         Examples.df_rows Examples.df_rows_reordered Hrows))).
Defined.

(** ** The audit trail *)

Section AuditFacts.
Import AuditTrail.
Context {json : Type}.
Implicit Types (data calls : list (LogEntry json)) (file : LogFile json).

Lemma log_all_app calls data : log_all calls data = (data ++ calls)%list.
Proof.
  revert data. induction calls as [|c calls IH]; intros data.
  - simpl. by rewrite app_nil_r.
  - change (log_all (c :: calls) data) with
      (log_all calls (log_action (timestamp c) (agent_name c) (action_type c)
                        (inputs c) (outputs c) (notes c) data)).
    rewrite IH. unfold log_action. rewrite <- app_assoc. by destruct c.
Qed.

Lemma truthy_str_nonempty (s : string) : s <> "" -> Py.truthy_str (Some s) = true.
Proof. by destruct s. Qed.

Lemma filter_some_field (field : LogEntry json -> string) (x : string) data :
  filter (fun d => Some (field d) = Some x) data = filter (fun d => field d = x) data.
Proof. apply list_filter_iff. intros d. split; [by intros [= ->]|by intros ->]. Qed.

(** C8: after any sequence of [log_action] calls the file holds its former
    entries followed by the logged ones, in call order; [query_logs] with a
    non-empty agent name returns the entries with exactly that agent name, in
    that order; both filters are optional, compare for equality, and are
    combined with "and" when both are given. *)
Theorem C8_query_returns_matching_in_order file calls (x y : string) :
  x <> "" -> y <> "" ->
  let data := log_all calls (__init__ file) in
  data = (__init__ file ++ calls)%list /\
  query_logs (Some x) None data = filter (fun d => agent_name d = x) data /\
  query_logs None (Some y) data = filter (fun d => action_type d = y) data /\
  query_logs (Some x) (Some y) data =
    filter (fun d => agent_name d = x /\ action_type d = y) data /\
  query_logs None None data = data.
Proof.
  intros Hx Hy data. split; [apply log_all_app|]. clearbody data.
  unfold query_logs. rewrite !truthy_str_nonempty by done. simpl.
  rewrite !filter_some_field. split_and!; try done.
  rewrite list_filter_filter. apply list_filter_iff. intros d. tauto.
Qed.

(** C10: an empty-string argument of [query_logs] filters nothing on its
    field: the query answers as if the argument were absent, so with no other
    filter it returns every entry, also those whose field is not empty. *)
Theorem C10_empty_string_is_no_filter data (other : option string) :
  query_logs (Some "") other data = query_logs None other data /\
  query_logs other (Some "") data = query_logs other None data /\
  query_logs (Some "") None data = data /\
  query_logs None (Some "") data = data /\
  query_logs (Some "") (Some "") data = data /\
  exists e : LogEntry json,
    query_logs (Some "") None [e] = [e] /\
    filter (fun d => agent_name d = "") [e] = [].
Proof.
  split_and!; try reflexivity.
  exists (Examples.entry json "t" "X" "summary"). split; reflexivity.
Qed.

End AuditFacts.

Lemma C8_query_returns_matching_in_order_witness :
  "X" <> "" /\ "validation" <> "" /\
  AuditTrail.query_logs (Some "X") None
    (AuditTrail.log_all Examples.three_calls (AuditTrail.__init__ None))
  = [Examples.entry unit "t1" "X" "summary"; Examples.entry unit "t3" "X" "validation"].
Proof.
  split; [discriminate|]. split; [discriminate|].
  assert ("X" <> "") as Hx by discriminate.
  assert ("validation" <> "") as Hy by discriminate.
  rewrite (proj1 (proj2 (@C8_query_returns_matching_in_order unit None
                           Examples.three_calls "X" "validation" Hx Hy))).
  reflexivity.
Defined.

(** * Further properties of the code *)

(** ** Dicts built by a loop of conditional assignments *)

Section DictFold.
Context {A V : Type} (key : A -> string) (f : A -> option V).
Context (step : Py.dict V -> A -> Py.dict V).
Hypothesis step_sets : forall acc a,
  step acc a = match f a with
               | Some v => Py.dict_set acc (key a) v
               | None => acc
               end.

Lemma dict_get_None (d : Py.dict V) k : Py.dict_get d k = None <-> k ∉ Py.keys d.
Proof.
  unfold Py.keys. induction d as [|[k0 v0] d IH]; simpl.
  - split; [intros _; apply not_elem_of_nil|done].
  - rewrite not_elem_of_cons. destruct (decide (k0 = k)) as [->|Hne].
    + split; [done|]. intros [Hk _]. done.
    + rewrite IH. split; [intros Hk; split; [congruence|done]|by intros [_ Hk]].
Qed.

Lemma fold_keys_origin (l : list A) (acc : Py.dict V) k :
  k ∈ Py.keys (fold_left step l acc) ->
  k ∈ Py.keys acc \/ exists a, a ∈ l /\ key a = k /\ is_Some (f a).
Proof.
  revert acc. induction l as [|a l IH]; intros acc Hk; simpl in Hk; [by left|].
  apply IH in Hk as [Hk|(a' & Ha' & Hkey & Hf)].
  - rewrite step_sets in Hk. destruct (f a) as [v|] eqn:Hfa; [|by left].
    rewrite keys_dict_set in Hk. destruct (decide (key a ∈ Py.keys acc)); [by left|].
    apply elem_of_app in Hk as [Hk|Hk]; [by left|].
    apply list_elem_of_singleton in Hk. right. exists a.
    split; [by left|]. split; [done|]. by rewrite Hfa.
  - right. exists a'. split; [by right|done].
Qed.

Lemma fold_get_skip (l : list A) (acc : Py.dict V) k :
  k ∉ map key l -> Py.dict_get (fold_left step l acc) k = Py.dict_get acc k.
Proof.
  revert acc. induction l as [|a l IH]; intros acc Hk; simpl; [done|].
  simpl in Hk. apply not_elem_of_cons in Hk as [Hne Hk].
  rewrite IH by done. rewrite step_sets. destruct (f a); [|done].
  rewrite dict_get_set. by rewrite decide_False.
Qed.

Lemma fold_get (l : list A) (acc : Py.dict V) a :
  NoDup (map key l) -> a ∈ l -> Py.dict_get acc (key a) = None ->
  Py.dict_get (fold_left step l acc) (key a) = f a.
Proof.
  revert acc. induction l as [|b l IH]; intros acc Hnd Hin Hacc; [by inversion Hin|].
  simpl in *. apply NoDup_cons in Hnd as [Hb Hnd]. apply elem_of_cons in Hin as [->|Hin].
  - rewrite fold_get_skip by done. rewrite step_sets.
    destruct (f b); [|done]. rewrite dict_get_set. by rewrite decide_True.
  - apply IH; [done..|]. rewrite step_sets. destruct (f b); [|done].
    rewrite dict_get_set. rewrite decide_False; [done|].
    intros Heq. apply Hb. rewrite Heq. by apply (list_elem_of_fmap_2 key).
Qed.



End DictFold.

(** ** The three diagnostic dicts of a frame *)

Section DiagnosticFacts.
Import Pandas DataQuality Spec.
Context `{NumericText}.

Lemma missing_step (acc : Py.dict Qc) (c : string * Series) :
  (fun acc '(col, series) =>
     if any_null series
     then Py.dict_set acc col (Py.round (mean_null series) 4)
     else acc) acc c
  = match missing_entry c with
    | Some v => Py.dict_set acc (fst c) v
    | None => acc
    end.
Proof. destruct c as [col series]. unfold missing_entry; simpl. by destruct (any_null _). Qed.


Lemma anomaly_step self (acc : Py.dict Anomaly) (c : string * Series) :
  (fun outliers '(col, column) => detect_column self outliers col column) acc c
  = match anomaly_entry self c with
    | Some v => Py.dict_set acc (fst c) v
    | None => acc
    end.
Proof.
  destruct c as [col series]. unfold detect_column, anomaly_entry; simpl.
  destruct (dropna_numbers series); [done|]. by destruct (0 <? _)%nat.
Qed.


Lemma labels_determine_column (cols : list (string * Series)) a b :
  NoDup (map fst cols) -> a ∈ cols -> b ∈ cols -> fst a = fst b -> a = b.
Proof.
  induction cols as [|c cols IH]; intros Hnd Ha Hb Hab; [by inversion Ha|].
  simpl in Hnd. apply NoDup_cons in Hnd as [Hc Hnd].
  apply elem_of_cons in Ha as [->|Ha]; apply elem_of_cons in Hb as [->|Hb].
  - done.
  - exfalso. apply Hc. rewrite Hab. by apply (list_elem_of_fmap_2 fst).
  - exfalso. apply Hc. rewrite <- Hab. by apply (list_elem_of_fmap_2 fst).
  - by apply IH.
Qed.

Lemma NoDup_number_labels (cols : list (string * Series)) :
  NoDup (map fst cols) ->
  NoDup (map fst (filter (fun c => is_number_dtype (snd c) = true) cols)).
Proof.
  intros Hnd. eapply sublist_NoDup; [exact Hnd|].
  apply fmap_sublist, sublist_filter.
Qed.

Lemma missing_lookup df col series :
  NoDup (map fst (columns df)) -> In (col, series) (columns df) ->
  Py.dict_get (_check_missing_values df) col = missing_entry (col, series).
Proof.
  intros Hnd Hin. unfold _check_missing_values.
  apply (fold_get fst missing_entry _ missing_step (columns df) [] (col, series));
    [done|by apply list_elem_of_In|done].
Qed.

Lemma anomalies_lookup self df col series :
  NoDup (map fst (columns df)) -> In (col, series) (columns df) ->
  Py.dict_get (_detect_outliers self df) col =
  if is_number_dtype series then anomaly_entry self (col, series) else None.
Proof.
  intros Hnd Hin. apply list_elem_of_In in Hin. unfold _detect_outliers.
  destruct (is_number_dtype series) eqn:Hs.
  - apply (fold_get fst (anomaly_entry self) _ (anomaly_step self) _ [] (col, series)).
    + by apply NoDup_number_labels.
    + apply list_elem_of_filter. done.
    + done.
  - rewrite (fold_get_skip fst (anomaly_entry self) _ (anomaly_step self)); [done|].
    intros Hcol. apply list_elem_of_fmap in Hcol as (c & Hc & Hin').
    apply list_elem_of_filter in Hin' as [Hnum Hin'].
    assert (c = (col, series)) as -> by (by apply (labels_determine_column (columns df))).
    simpl in Hnum. congruence.
Qed.



Lemma anomalies_keys_origin self df k :
  k ∈ Py.keys (_detect_outliers self df) ->
  exists series, (k, series) ∈ columns df /\ is_number_dtype series = true.
Proof.
  intros Hk. unfold _detect_outliers in Hk.
  apply (fold_keys_origin fst (anomaly_entry self) _ (anomaly_step self)) in Hk
    as [Hk|([col series] & Ha & <- & _)]; [by inversion Hk|].
  apply list_elem_of_filter in Ha as [Hnum Ha]. eauto.
Qed.

End DiagnosticFacts.

(** ** Numbers *)


Lemma this_qz z : (this (qz z) == inject_Z z)%Q.
Proof. unfold qz. simpl. apply Qred_correct. Qed.




Section ValidatorExtras.
Import Pandas DataQuality Spec.
Context `{NumericText}.

Lemma spec_blocking_elem threshold (missing : list (string * Qc)) col pct :
  (col, pct) ∈ missing -> (threshold ≤ pct)%Qc ->
  blocking_message col pct ∈ spec_blocking threshold missing.
Proof.
  intros Hin Hle. unfold spec_blocking.
  apply (list_elem_of_fmap_2 (fun cp => blocking_message (fst cp) (snd cp)) _ (col, pct)).
  apply list_elem_of_filter. done.
Qed.

Lemma spec_severity_high threshold missing issues anoms message :
  message ∈ spec_blocking threshold missing ->
  spec_severity threshold missing issues anoms = ("HIGH", spec_blocking threshold missing).
Proof.
  intros Hin. unfold spec_severity. destruct (spec_blocking _ _); [by inversion Hin|done].
Qed.

Lemma critical_column self df col series :
  NoDup (map fst (columns df)) -> In (col, series) (columns df) ->
  (1 <= index_len df)%nat -> any_null series = true ->
  (missing_critical_threshold self ≤ Py.round (mean_null series) 4)%Qc ->
  exists r,
    run self df = Py.Ret r /\
    anomalies r = _detect_outliers self df /\
    severity r = "HIGH" /\
    Py.dict_get (missing_values r) col = Some (Py.round (mean_null series) 4) /\
    blocking_message col (Py.round (mean_null series) 4) ∈ blocking_issues r.
Proof.
  intros Hnd Hin Hrows Hnull Hle.
  assert (Py.dict_get (_check_missing_values df) col = Some (Py.round (mean_null series) 4))
    as Hget.
  { rewrite (missing_lookup df col series) by done. unfold missing_entry; simpl.
    by rewrite Hnull. }
  eexists. split.
  - apply run_nonempty, empty_false. split; [done|].
    destruct (columns df); [by inversion Hin|simpl; lia].
  - simpl. rewrite compute_severity_spec. simpl.
    pose proof (proj2 (list_elem_of_In _ _) (dict_get_In _ _ _ Hget)) as Hentry.
    pose proof (spec_blocking_elem _ _ _ _ Hentry Hle) as Hmsg.
    rewrite (spec_severity_high _ _ _ _ _ Hmsg). simpl. done.
Qed.


Lemma all_missing_count series :
  all_missing series -> count_null series = len series.
Proof.
  unfold all_missing, count_null, len. induction 1 as [|x l Hx _ IH]; [done|].
  rewrite filter_cons_True by done. simpl. by rewrite IH.
Qed.

Lemma all_missing_any series :
  all_missing series -> (1 <= len series)%nat -> any_null series = true.
Proof.
  unfold all_missing, any_null, len. destruct 1 as [|x l Hx _]; simpl; [lia|].
  intros _. by rewrite Hx.
Qed.

Lemma all_missing_numbers series : all_missing series -> dropna_numbers series = [].
Proof.
  unfold all_missing. destruct series as [v|v|v|v|v]; simpl; try done.
  - induction v as [|[z|] v IH]; simpl; [done| |]; inversion 1; subst; [done|].
    by apply IH.
  - induction v as [|[z|] v IH]; simpl; [done| |]; inversion 1; subst; [done|].
    by apply IH.
Qed.

Lemma qz_ratio_one (n : nat) : (1 <= n)%nat -> (qz (Z.of_nat n) / qz (Z.of_nat n))%Qc = qz 1.
Proof.
  intros Hn. apply Qc_is_canon. unfold Qcdiv, Qcmult, Qcinv. simpl. rewrite !Qred_correct.
  apply Qmult_inv_r. unfold Qeq; simpl. lia.
Qed.

(** X2: a column all of whose cells are missing is recorded with fraction 1,
    makes the report HIGH with the message "... missing 100.0% of values"
    whenever the critical threshold is at most 1, and never has an entry in
    [anomalies]. *)
Theorem X2_all_missing_column_blocks self df col series :
  NoDup (map fst (columns df)) -> In (col, series) (columns df) ->
  (1 <= index_len df)%nat -> (1 <= len series)%nat -> all_missing series ->
  (missing_critical_threshold self ≤ qz 1)%Qc ->
  exists r,
    run self df = Py.Ret r /\
    severity r = "HIGH" /\
    Py.dict_get (missing_values r) col = Some (qz 1) /\
    "Column '" +:+ col +:+ "' missing 100.0% of values" ∈ blocking_issues r /\
    Py.dict_get (anomalies r) col = None.
Proof.
  intros Hnd Hin Hrows Hlen Hall Hthr.
  assert (Py.round (mean_null series) 4 = qz 1) as Hone.
  { unfold mean_null. rewrite all_missing_count, qz_ratio_one by done.
    apply Qc_is_canon. vm_compute. reflexivity. }
  destruct (critical_column self df col series) as (r & Hr & Han & Hs & Hg & Hb);
    [done|done|done|by apply all_missing_any|by rewrite Hone|].
  exists r. rewrite Hone in Hg, Hb. split_and!; [done..| |].
  - exact Hb.
  - rewrite Han, (anomalies_lookup self df col series) by done.
    unfold anomaly_entry; simpl. rewrite all_missing_numbers by done.
    by destruct (is_number_dtype series).
Qed.

End ValidatorExtras.

Section ValidatorExtras2.
Import Pandas DataQuality Spec.
Context `{NumericText}.






End ValidatorExtras2.

Section ValidatorExtras3.
Import Pandas DataQuality Spec.
Context `{NumericText}.




Lemma quantile_constant (xs : list Qc) (c : Qc) (num : nat) (den : positive) :
  Forall (fun x => x = c) xs -> xs <> [] -> (Z.of_nat num <= Zpos den)%Z ->
  quantile xs num den = c.
Proof.
  intros Hall Hne Hq. unfold quantile.
  set (n := length xs). assert (1 <= n)%nat as Hn.
  { unfold n. destruct xs; [done|simpl; lia]. }
  set (sorted := merge_sort Qcle xs).
  assert (Forall (fun x => x = c) sorted) as Hs.
  { unfold sorted. by rewrite merge_sort_Permutation. }
  assert (length sorted = n) as Hlen.
  { unfold sorted, n. by rewrite merge_sort_Permutation. }
  set (pos := (Z.of_nat num * Z.of_nat (n - 1))%Z).
  assert (Z.to_nat (pos / Zpos den) <= n - 1)%nat as Hlo.
  { assert (pos / Zpos den <= Z.of_nat (n - 1))%Z; [|lia].
    apply Z.div_le_upper_bound; [lia|]. unfold pos. nia. }
  rewrite (Forall_nth (fun x => x = c) (qz 0) sorted) in Hs.
  rewrite !Hs by lia. ring.
Qed.

Lemma constant_no_outlier self (xs : list Qc) (c : Qc) :
  Forall (fun x => x = c) xs -> xs <> [] -> outlier_count (iqr_stats self xs) = 0%nat.
Proof.
  intros Hall Hne. unfold iqr_stats; cbn [outlier_count].
  rewrite !(quantile_constant xs c) by (done || lia).
  replace (c - outlier_iqr_multiplier self * (c - c))%Qc with c by ring.
  replace (c + outlier_iqr_multiplier self * (c - c))%Qc with c by ring.
  clear Hne. induction Hall as [|x xs -> _ IH]; [done|].
  rewrite filter_cons_False; [done|]. unfold is_outlier.
  rewrite !bool_decide_eq_false_2; [done|intros Hlt; by apply Qclt_not_eq in Hlt..].
Qed.

(** X7: a column whose non-missing values are all equal never has an entry
    in [anomalies], whatever the multiplier. *)
Theorem X7_constant_column_not_anomalous self df col series c :
  NoDup (map fst (columns df)) -> In (col, series) (columns df) ->
  constant_column series c ->
  exists r, run self df = Py.Ret r /\ Py.dict_get (anomalies r) col = None.
Proof.
  intros Hnd Hin Hc. destruct (empty df) eqn:He.
  - eexists. split; [by apply run_empty|]. done.
  - eexists. split; [by apply run_nonempty|]. simpl.
    rewrite (anomalies_lookup self df col series) by done.
    destruct (is_number_dtype series); [|done].
    unfold anomaly_entry; cbn [snd]. unfold constant_column in Hc.
    destruct (dropna_numbers series) as [|x xs] eqn:Hs; [done|].
    by rewrite (constant_no_outlier self (x :: xs) c).
Qed.

Lemma spec_blocking_antitone t1 t2 (missing : list (string * Qc)) :
  (t1 ≤ t2)%Qc -> spec_blocking t2 missing `sublist_of` spec_blocking t1 missing.
Proof.
  intros Ht. unfold spec_blocking. apply fmap_sublist.
  rewrite <- (list_filter_filter_l (fun cp => (t2 ≤ snd cp)%Qc) (fun cp => (t1 ≤ snd cp)%Qc)).
  - apply sublist_filter.
  - intros cp Hcp. by etransitivity.
Qed.

(** X8: between two agents with the same multiplier, the one with the higher
    critical threshold reports a sublist of the other's blocking issues: if it
    reports HIGH so does the other, if the other reports LOW so does it, and
    the three diagnostic dicts agree. *)
Theorem X8_raising_threshold_never_escalates a1 a2 df :
  (missing_critical_threshold a1 ≤ missing_critical_threshold a2)%Qc ->
  outlier_iqr_multiplier a1 = outlier_iqr_multiplier a2 ->
  exists r1 r2,
    run a1 df = Py.Ret r1 /\ run a2 df = Py.Ret r2 /\
    blocking_issues r2 `sublist_of` blocking_issues r1 /\
    (severity r2 = "HIGH" -> severity r1 = "HIGH") /\
    (severity r1 = "LOW" -> severity r2 = "LOW") /\
    missing_values r1 = missing_values r2 /\
    type_issues r1 = type_issues r2 /\
    anomalies r1 = anomalies r2.
Proof.
  intros Ht Hm. destruct (empty df) eqn:He.
  - do 2 eexists. split; [by apply run_empty|]. split; [by apply run_empty|]. done.
  - do 2 eexists. split; [by apply run_nonempty|]. split; [by apply run_nonempty|].
    simpl. rewrite !compute_severity_spec. simpl.
    assert (_detect_outliers a1 df = _detect_outliers a2 df) as ->.
    { unfold _detect_outliers, detect_column, iqr_stats. by rewrite Hm. }
    pose proof (spec_blocking_antitone _ _ (_check_missing_values df) Ht) as Hsub.
    unfold spec_severity.
    destruct (spec_blocking (missing_critical_threshold a2) _) as [|m2 b2] eqn:H2,
             (spec_blocking (missing_critical_threshold a1) _) as [|m1 b1] eqn:H1; simpl.
    + destruct (flagged_issues df), (_detect_outliers a2 df); done.
    + destruct (flagged_issues df), (_detect_outliers a2 df);
        split_and!; try done; apply sublist_nil_l.
    + apply sublist_nil_r in Hsub. done.
    + done.
Qed.

Lemma remove_dups_constant {A} `{EqDecision A} (l : list A) (t : A) :
  Forall (fun x => x = t) l -> (length (remove_dups l) <= 1)%nat.
Proof.
  induction 1 as [|x l -> Hl IH]; simpl; [lia|].
  destruct (decide_rel elem_of t l) as [Hin|Hnin]; [done|].
  destruct l as [|y l]; [simpl; lia|].
  apply Forall_cons in Hl as [-> _]. exfalso. apply Hnin. by left.
Qed.

Lemma to_numeric_numbers (l : list pyobj) :
  Forall (fun x => isinstance_number x = true) l -> exists qs, to_numeric l = Py.Ret qs.
Proof.
  induction 1 as [|x l Hx _ [qs IH]]; simpl; [eauto|].
  rewrite IH. destruct x; try done; simpl; eauto.
Qed.

(** X9: an object column whose non-missing cells are all strings, or all
    numbers and booleans, is never in [type_issues]. *)
Theorem X9_uniform_object_column_not_flagged self df col values :
  NoDup (map fst (columns df)) -> In (col, Object values) (columns df) ->
  Forall (fun x => x = PyNull \/ exists s, x = PyStr s) values \/
  Forall (fun x => isnull x = true \/ isinstance_number x = true) values ->
  exists r, run self df = Py.Ret r /\ Py.dict_get (type_issues r) col = None.
Proof.
  intros Hnd Hin Hcells. destruct (empty df) eqn:He.
  - eexists. split; [by apply run_empty|]. done.
  - eexists. split; [by apply run_nonempty|]. simpl. unfold flagged_issues.
    rewrite (flagged_lookup [] (columns df) col (Object values)) by done.
    unfold column_flag; simpl. destruct Hcells as [Htext|Hnum].
    + assert (nunique_types (dropna (Object values)) <= 1)%nat as Hu.
      { unfold nunique_types. apply (remove_dups_constant _ TStr).
        apply Forall_fmap. unfold dropna; simpl.
        apply Forall_forall. intros x Hx. apply list_elem_of_filter in Hx as [Hnn Hx].
        rewrite Forall_forall in Htext. destruct (Htext x Hx) as [->|[s ->]]; done. }
      destruct (to_numeric _); [done|].
      destruct (1 <? _)%nat eqn:Hlt; [apply Nat.ltb_lt in Hlt; lia|done].
    + destruct (to_numeric_numbers (dropna (Object values))) as [qs ->]; [|done].
      unfold dropna; simpl. apply Forall_forall. intros x Hx.
      apply list_elem_of_filter in Hx as [Hnn Hx].
      rewrite Forall_forall in Hnum. destruct (Hnum x Hx); congruence.
Qed.

End ValidatorExtras3.

Section ReporterExtras.
Import Pandas DataQuality Spec Reporter.
Context `{NumericText}.

Lemma run_cases self df :
  exists r,
    run self df = Py.Ret r /\
    ((empty df = true /\ r = _empty_dataset_report) \/
     (empty df = false /\ severity r = "HIGH" /\
        blocking_issues r <> [] /\ missing_values r <> []) \/
     (empty df = false /\ severity r = "MEDIUM" /\ blocking_issues r = [] /\
        (type_issues r <> [] \/ anomalies r <> [])) \/
     (empty df = false /\ severity r = "LOW" /\ blocking_issues r = [] /\
        type_issues r = [] /\ anomalies r = [])).
Proof.
  destruct (empty df) eqn:He.
  - eexists. split; [by apply run_empty|]. by left.
  - eexists. split; [by apply run_nonempty|]. right. simpl.
    rewrite compute_severity_spec. simpl. unfold spec_severity, spec_blocking.
    destruct (_check_missing_values df) as [|m ms]; simpl.
    + destruct (flagged_issues df), (_detect_outliers self df); simpl;
        [right; right|right; left..]; split_and!; try done; by (left + right).
    + destruct (filter _ (m :: ms)); simpl.
      * destruct (flagged_issues df), (_detect_outliers self df); simpl;
          [right; right|right; left..]; split_and!; try done; by (left + right).
      * left. done.
Qed.

Ltac settle_elem :=
  match goal with
  | |- ?x ∈ ?l => apply (bool_decide_unpack (x ∈ l)); vm_compute; exact I
  | |- ?x ∉ ?l => apply (proj1 (bool_decide_eq_false (x ∈ l))); vm_compute; reflexivity
  | H : ?x ∈ ?l |- _ =>
      exfalso; revert H; apply (proj1 (bool_decide_eq_false (x ∈ l)));
      vm_compute; reflexivity
  end.

(** X11: a raw report can be read back from its formatted rendering, so
    [format_report] maps different raw reports to different renderings. *)
Theorem X11_format_report_lossless (r1 r2 : Report) :
  unformat (format_report r1) = r1 /\
  (format_report r1 = format_report r2 -> r1 = r2).
Proof.
  assert (forall r, unformat (format_report r) = r) as Hround.
  { intros [[rows cols names] missing issues anoms sev blocking]. reflexivity. }
  split; [apply Hround|]. intros Heq.
  rewrite <- (Hround r1), <- (Hround r2). by rewrite Heq.
Qed.

(** X12: [_generate_recommendations] returns between one and four lines;
    the first is the blocking line or the proceed line, never both, and each
    of the other three lines is present exactly under its condition. *)
Theorem X12_recommendations_characterised (r : Report) :
  let recs := _generate_recommendations r in
  (1 <= length recs <= 4)%nat /\
  head recs = Some (if Py.truthy (blocking_issues r)
                    then "Resolve blocking data quality issues before modeling."
                    else "Proceed with downstream modeling.") /\
  ("Resolve blocking data quality issues before modeling." ∈ recs
     <-> blocking_issues r <> []) /\
  ("Proceed with downstream modeling." ∈ recs <-> blocking_issues r = []) /\
  ("Review anomaly-prone numerical features for business validity." ∈ recs
     <-> anomalies r <> []) /\
  ("No missing-value preprocessing required." ∈ recs <-> missing_values r = []) /\
  ("No schema or type corrections needed." ∈ recs <-> type_issues r = []).
Proof.
  destruct r as [summary missing issues anoms sev blocking].
  unfold _generate_recommendations; simpl.
  destruct blocking, anoms, missing, issues; simpl;
    (split_and!; [lia|lia|reflexivity|..]); split; intros Hx;
    first [done | settle_elem].
Qed.

(** X13: in the rendering of a report of [run], the status repeats the
    severity, [blocking] is true exactly for HIGH, and the summary and the
    first recommendation are those of the severity; for LOW the
    recommendations are the proceed line, the no-missing line when
    [missing_values] is empty, and the no-schema line. *)
Theorem X13_formatted_status_follows_severity self df :
  exists r,
    run self df = Py.Ret r /\
    let f := format_report r in
    status_severity (status f) = severity r /\
    (status_blocking (status f) = true <-> severity r = "HIGH") /\
    (severity r = "HIGH" ->
       status_summary (status f) =
         "Critical data quality issues detected. Dataset is not safe for modeling." /\
       head (recommendations f) =
         Some "Resolve blocking data quality issues before modeling.") /\
    (severity r = "MEDIUM" ->
       status_summary (status f) =
         "Dataset is usable with minor anomalies that should be reviewed." /\
       head (recommendations f) = Some "Proceed with downstream modeling.") /\
    (severity r = "LOW" ->
       status_summary (status f) = "Dataset meets all quality checks." /\
       recommendations f =
         "Proceed with downstream modeling." ::
         (if Py.truthy (missing_values r) then []
          else ["No missing-value preprocessing required."]) ++
         ["No schema or type corrections needed."]).
Proof.
  destruct (run_cases self df) as (r & Hr & Hcases). exists r. split; [done|].
  destruct r as [summary missing issues anoms sev blocking]. simpl in *.
  unfold _severity_summary, _generate_recommendations; simpl.
  destruct Hcases as [[_ [= -> -> -> -> -> ->]]|[(_ & -> & Hb & _)|[(_ & -> & -> & _)|
    (_ & -> & -> & -> & ->)]]]; simpl.
  - split_and!; done.
  - destruct blocking; [done|].
    destruct anoms, missing, issues; simpl; split_and!; done.
  - destruct anoms, missing, issues; simpl; split_and!; done.
  - destruct missing; simpl; split_and!; done.
Qed.

(** X14: for a frame with a row and a column, a HIGH report never carries the
    line "No missing-value preprocessing required." and counts at least one
    column with missing values; a MEDIUM report carries the review line or
    lacks the no-schema line. *)
Theorem X14_high_severity_recommendations self df :
  (1 <= index_len df)%nat -> (1 <= length (columns df))%nat ->
  exists r,
    run self df = Py.Ret r /\
    (severity r = "HIGH" ->
       ("No missing-value preprocessing required." ∉ recommendations (format_report r)) /\
       (1 <= columns_with_missing
               (quality_missing_values (data_quality (format_report r))))%nat) /\
    (severity r = "MEDIUM" ->
       ("Review anomaly-prone numerical features for business validity."
          ∈ recommendations (format_report r)) \/
       ("No schema or type corrections needed." ∉ recommendations (format_report r))).
Proof.
  intros Hrows Hcols. destruct (run_cases self df) as (r & Hr & Hcases).
  exists r. split; [done|].
  assert (empty df = false) as He by (apply empty_false; done).
  destruct r as [summary missing issues anoms sev blocking]. simpl in *.
  unfold _generate_recommendations; simpl.
  destruct Hcases as [[He' _]|[(_ & -> & Hb & Hm)|[(_ & -> & -> & Hia)|
    (_ & -> & _)]]]; [congruence|..]; (split; [intros Hs'|intros Hs']);
    try discriminate.
  - destruct missing; [done|]. split; [|simpl; lia].
    destruct blocking, anoms, issues; simpl; settle_elem.
  - destruct Hia as [Hi|Ha].
    + right. destruct issues; [done|]. destruct anoms, missing; simpl; settle_elem.
    + left. destruct anoms; [done|]. destruct issues, missing; simpl; settle_elem.
Qed.

End ReporterExtras.

Section ReporterExtras2.
Import Pandas DataQuality Spec Reporter.
Context `{NumericText}.

(** X10: a frame without columns gets the empty-dataset report however many
    rows its index has: the summary says 0 rows and the formatted
    recommendations are the three of the empty report. *)
Theorem X10_frame_without_columns_is_empty self df :
  columns df = [] ->
  run self df = Py.Ret _empty_dataset_report /\
  num_rows (dataset_summary _empty_dataset_report) = 0%nat /\
  recommendations (format_report _empty_dataset_report) =
    ["Resolve blocking data quality issues before modeling.";
     "No missing-value preprocessing required.";
     "No schema or type corrections needed."].
Proof.
  intros Hc. split; [|done]. apply run_empty. unfold empty. rewrite Hc. apply orb_true_r.
Qed.

(** X15: a MEDIUM report without anomalies is rendered with the status
    summary about "minor anomalies" while its anomaly block says
    "No anomalies detected" and its type-issue count is at least 1. *)
Theorem X15_type_issue_only_is_reported_as_anomaly self df r :
  run self df = Py.Ret r -> severity r = "MEDIUM" -> anomalies r = [] ->
  status_summary (status (format_report r)) =
    "Dataset is usable with minor anomalies that should be reviewed." /\
  anomaly_summary (anomaly_analysis (format_report r)) = "No anomalies detected" /\
  (1 <= type_count (quality_type_issues (data_quality (format_report r))))%nat.
Proof.
  intros Hr Hs Ha. destruct (run_cases self df) as (r' & Hr' & Hcases).
  rewrite Hr in Hr'. injection Hr' as <-.
  simpl. unfold _severity_summary. rewrite Hs, Ha. simpl.
  split_and!; [done|done|].
  destruct Hcases as [[_ ->]|[(_ & Hs' & _)|[(_ & _ & _ & Hia)|(_ & Hs' & _)]]];
    try (rewrite Hs in Hs'; discriminate); try discriminate.
  destruct Hia as [Hi|Ha']; [|congruence]. destruct (type_issues r); [done|simpl; lia].
Qed.

End ReporterExtras2.

Section AuditExtras.
Import AuditTrail.
Context {json : Type}.
Implicit Types (data : list (LogEntry json)).

(** X16: after [log_action] the unfiltered query returns the former entries
    followed by the new one; a query for a non-empty agent name gains the new
    entry at its end when the names are equal and is unchanged otherwise. *)
Theorem X16_logged_entry_is_queryable (now name action : string)
    (i o : option json) (n : option string) data (x : string) :
  x <> "" ->
  let log_entry := {| timestamp := now; agent_name := name; action_type := action;
                      inputs := i; outputs := o; notes := n |} in
  query_logs None None (log_action now name action i o n data) = (data ++ [log_entry])%list /\
  query_logs (Some x) None (log_action now name action i o n data) =
    if decide (name = x)
    then (query_logs (Some x) None data ++ [log_entry])%list
    else query_logs (Some x) None data.
Proof.
  intros Hx log_entry. split; [done|]. unfold query_logs, log_action.
  rewrite truthy_str_nonempty by done. simpl. fold log_entry.
  rewrite filter_app, filter_cons, filter_nil. simpl.
  destruct (decide (name = x)) as [->|Hne].
  - by rewrite decide_True.
  - rewrite decide_False by congruence. by rewrite app_nil_r.
Qed.

(** X17: [query_logs] with both filters equals filtering by one and then by
    the other, in either order; querying a result again with the same
    filters changes nothing, and a result is a sublist of the log. *)
Theorem X17_query_filters_compose (x y : option string) data :
  query_logs x y data = query_logs None y (query_logs x None data) /\
  query_logs x y data = query_logs x None (query_logs None y data) /\
  query_logs x y (query_logs x y data) = query_logs x y data /\
  query_logs x y data `sublist_of` data.
Proof.
  unfold query_logs. destruct (Py.truthy_str x), (Py.truthy_str y); simpl; split_and!;
    try done; try apply sublist_filter.
  - rewrite !list_filter_filter. apply list_filter_iff. intros d. tauto.
  - rewrite !list_filter_filter. apply list_filter_iff. intros d. tauto.
  - etransitivity; apply sublist_filter.
  - by apply list_filter_filter_l.
  - by apply list_filter_filter_l.
Qed.

End AuditExtras.

(** ** Outlier detection: units, bounds, multiplier, row order *)

Section AffineFacts.
Import Pandas DataQuality Spec.





Lemma quantile_index_in_range (n num : nat) (den : positive) :
  (1 <= n)%nat -> (Z.of_nat num <= Zpos den)%Z ->
  (Z.to_nat ((Z.of_nat num * Z.of_nat (n - 1)) / Zpos den) <= n - 1)%nat.
Proof.
  intros Hn Hq.
  assert ((Z.of_nat num * Z.of_nat (n - 1)) / Zpos den <= Z.of_nat (n - 1))%Z; [|lia].
  apply Z.div_le_upper_bound; [lia|]. nia.
Qed.




End AffineFacts.

Section QuantileOrder.
Import Pandas DataQuality Spec.

Lemma sorted_nth_le (l : list Qc) (d : Qc) :
  StronglySorted Qcle l ->
  forall i j, (i <= j)%nat -> (j < length l)%nat -> (nth i l d ≤ nth j l d)%Qc.
Proof.
  induction 1 as [|x l Hs IH Hx]; intros i j Hij Hj; [simpl in Hj; lia|].
  destruct i as [|i], j as [|j]; simpl in *; try lia.
  - reflexivity.
  - rewrite Forall_forall in Hx. apply Hx, list_elem_of_In, nth_In. lia.
  - apply IH; lia.
Qed.

Lemma Qc_sub_nonneg (a b : Qc) : (a ≤ b)%Qc -> (0 ≤ b - a)%Qc.
Proof.
  intros Hab. apply (Qcplus_le_mono_r a b (- a)) in Hab.
  replace (a + - a)%Qc with (Q2Qc 0) in Hab by ring. exact Hab.
Qed.

Lemma lerp_bounds (a b t : Qc) :
  (a ≤ b)%Qc -> (0 ≤ t)%Qc -> (t ≤ 1)%Qc ->
  (a ≤ a + (b - a) * t)%Qc /\ (a + (b - a) * t ≤ b)%Qc.
Proof.
  intros Hab Ht0 Ht1. pose proof (Qc_sub_nonneg a b Hab) as Hd. split.
  - replace a with (a + 0)%Qc at 1 by ring. apply Qcplus_le_mono_l.
    by apply Qcmult_nonneg_nonneg.
  - replace b with (a + (b - a) * 1)%Qc at 2 by ring. apply Qcplus_le_mono_l.
    by apply Qcmult_le_mono_nonneg_l.
Qed.

Lemma qfrac_le (z1 z2 : Z) (d : positive) : (z1 <= z2)%Z -> (qfrac z1 d ≤ qfrac z2 d)%Qc.
Proof.
  intros Hz. unfold qfrac, Qcle. simpl. rewrite !Qred_correct. unfold Qle; simpl. nia.
Qed.

Lemma qfrac_unit (z : Z) (d : positive) :
  (0 <= z < Zpos d)%Z -> (0 ≤ qfrac z d)%Qc /\ (qfrac z d ≤ 1)%Qc.
Proof.
  intros Hz. unfold qfrac, Qcle. simpl. rewrite !Qred_correct. unfold Qle; simpl. lia.
Qed.

Lemma quantile_monotone (xs : list Qc) (num1 num2 : nat) (den : positive) :
  xs <> [] -> (num1 <= num2)%nat -> (Z.of_nat num2 <= Zpos den)%Z ->
  (quantile xs num1 den ≤ quantile xs num2 den)%Qc.
Proof.
  intros Hne Hnum Hq. unfold quantile.
  set (n := length xs). assert (1 <= n)%nat as Hn.
  { unfold n. destruct xs; [done|simpl; lia]. }
  set (sorted := merge_sort Qcle xs).
  assert (length sorted = n) as Hlen.
  { unfold sorted, n. by rewrite merge_sort_Permutation. }
  assert (StronglySorted Qcle sorted) as Hs.
  { unfold sorted. apply StronglySorted_merge_sort; apply _. }
  set (p1 := (Z.of_nat num1 * Z.of_nat (n - 1))%Z).
  set (p2 := (Z.of_nat num2 * Z.of_nat (n - 1))%Z).
  assert (0 <= p1 <= p2)%Z as Hp by (unfold p1, p2; nia).
  pose proof (quantile_index_in_range n num1 den Hn ltac:(lia)) as Hlo1.
  pose proof (quantile_index_in_range n num2 den Hn Hq) as Hlo2.
  fold p1 in Hlo1. fold p2 in Hlo2.
  pose proof (Z.div_mod p1 (Zpos den) ltac:(lia)) as Hdm1.
  pose proof (Z.div_mod p2 (Zpos den) ltac:(lia)) as Hdm2.
  pose proof (Z.mod_pos_bound p1 (Zpos den) ltac:(lia)) as Hr1.
  pose proof (Z.mod_pos_bound p2 (Zpos den) ltac:(lia)) as Hr2.
  assert (0 <= p1 / Zpos den)%Z as Hq1 by (apply Z.div_pos; lia).
  assert (p1 / Zpos den <= p2 / Zpos den)%Z as Hq12 by (apply Z.div_le_mono; lia).
  set (lo1 := Z.to_nat (p1 / Zpos den)) in *. set (lo2 := Z.to_nat (p2 / Zpos den)) in *.
  assert (lo1 <= lo2)%nat as Hlo by (unfold lo1, lo2; lia).
  set (a1 := nth lo1 sorted (qz 0)). set (b1 := nth (Nat.min (lo1 + 1) (n - 1)) sorted (qz 0)).
  set (a2 := nth lo2 sorted (qz 0)). set (b2 := nth (Nat.min (lo2 + 1) (n - 1)) sorted (qz 0)).
  assert (a1 ≤ b1)%Qc as Hab1 by (apply sorted_nth_le; [done|lia|lia]).
  assert (a2 ≤ b2)%Qc as Hab2 by (apply sorted_nth_le; [done|lia|lia]).
  destruct (qfrac_unit (p1 mod Zpos den) den Hr1) as [Hf1 Hf1'].
  destruct (qfrac_unit (p2 mod Zpos den) den Hr2) as [Hf2 Hf2'].
  destruct (decide (lo1 = lo2)) as [Heq|Hneq].
  - assert (p1 / Zpos den = p2 / Zpos den)%Z as Hqeq by (unfold lo1, lo2 in Heq; lia).
    unfold a1, b1, a2, b2. rewrite Heq. fold a2 b2. apply Qcplus_le_mono_l.
    apply Qcmult_le_mono_nonneg_l; [by apply Qc_sub_nonneg|].
    apply qfrac_le. lia.
  - transitivity b1; [by apply lerp_bounds|].
    transitivity a2; [|by apply lerp_bounds].
    apply sorted_nth_le; [done|lia|lia].
Qed.

Lemma iqr_nonneg self (xs : list Qc) : xs <> [] -> (0 ≤ iqr (iqr_stats self xs))%Qc.
Proof.
  intros Hne. unfold iqr_stats; cbn [iqr]. apply Qc_sub_nonneg.
  apply quantile_monotone; [done|lia|lia].
Qed.

End QuantileOrder.

Lemma Qc_le_add_nonneg (b d : Qc) : (0 ≤ d)%Qc -> (b ≤ b + d)%Qc.
Proof.
  intros Hd. apply (Qcplus_le_mono_l 0 d b) in Hd.
  replace (b + 0)%Qc with b in Hd by ring. exact Hd.
Qed.

Lemma Qc_sub_nonneg_le (a d : Qc) : (0 ≤ d)%Qc -> (a - d ≤ a)%Qc.
Proof.
  intros Hd. apply (Qcplus_le_mono_r _ _ d).
  replace (a - d + d)%Qc with a by ring. by apply Qc_le_add_nonneg.
Qed.

Lemma Qc_sub_antitone (a d1 d2 : Qc) : (d1 ≤ d2)%Qc -> (a - d2 ≤ a - d1)%Qc.
Proof.
  intros Hd. apply (Qcplus_le_mono_r _ _ (d1 + d2 - a)).
  replace (a - d2 + (d1 + d2 - a))%Qc with d1 by ring.
  replace (a - d1 + (d1 + d2 - a))%Qc with d2 by ring. exact Hd.
Qed.

Section OutlierOrder.
Import Pandas DataQuality Spec.

(** X19: on a non-empty column and with a non-negative multiplier, the IQR is
    non-negative, the bounds enclose the quartiles, and no value between the
    quartiles is an outlier. *)
Theorem X19_iqr_bounds_ordered self (xs : list Qc) :
  xs <> [] -> (0 ≤ outlier_iqr_multiplier self)%Qc ->
  let st := iqr_stats self xs in
  (0 ≤ iqr st)%Qc /\
  (lower st ≤ q1 st)%Qc /\ (q1 st ≤ q3 st)%Qc /\ (q3 st ≤ upper st)%Qc /\
  forall x, (q1 st ≤ x)%Qc -> (x ≤ q3 st)%Qc -> is_outlier (lower st) (upper st) x = false.
Proof.
  intros Hne Hk st.
  pose proof (quantile_monotone xs 1 3 4 Hne ltac:(lia) ltac:(lia)) as Hq.
  pose proof (iqr_nonneg self xs Hne) as Hi.
  unfold st, iqr_stats in *. cbn [q1 q3 iqr lower upper] in *.
  set (a := quantile xs 1 4) in *. set (b := quantile xs 3 4) in *.
  set (k := outlier_iqr_multiplier self) in *.
  pose proof (Qcmult_nonneg_nonneg k (b - a) Hk Hi) as Hki.
  assert (a - k * (b - a) ≤ a)%Qc as Hlo by (by apply Qc_sub_nonneg_le).
  assert (b ≤ b + k * (b - a))%Qc as Hhi by (by apply Qc_le_add_nonneg).
  split_and!; try done.
  intros x Hax Hxb. unfold is_outlier.
  rewrite !bool_decide_eq_false_2; [done|..]; apply Qcle_not_lt; by etransitivity.
Qed.

Lemma wider_bounds_fewer_outliers (a1 a2 : DataQualityValidationAgent) (xs : list Qc) :
  xs <> [] -> (outlier_iqr_multiplier a1 ≤ outlier_iqr_multiplier a2)%Qc ->
  (outlier_count (iqr_stats a2 xs) <= outlier_count (iqr_stats a1 xs))%nat.
Proof.
  intros Hne Hk. pose proof (iqr_nonneg a1 xs Hne) as Hi.
  unfold iqr_stats in *. cbn [iqr outlier_count] in *.
  set (a := quantile xs 1 4) in *. set (b := quantile xs 3 4) in *.
  set (k1 := outlier_iqr_multiplier a1) in *. set (k2 := outlier_iqr_multiplier a2) in *.
  pose proof (Qcmult_le_mono_nonneg_r k1 k2 (b - a) Hi Hk) as Hki.
  assert (a - k2 * (b - a) ≤ a - k1 * (b - a))%Qc as Hlo by (by apply Qc_sub_antitone).
  assert (b + k1 * (b - a) ≤ b + k2 * (b - a))%Qc as Hhi by (by apply Qcplus_le_mono_l).
  apply sublist_length.
  rewrite <- (list_filter_filter_l
                (fun x => is_outlier (a - k2 * (b - a)) (b + k2 * (b - a)) x = true)
                (fun x => is_outlier (a - k1 * (b - a)) (b + k1 * (b - a)) x = true)).
  - apply sublist_filter.
  - intros x. unfold is_outlier. rewrite !orb_true_iff, !bool_decide_eq_true.
    intros [Hx|Hx]; [left|right].
    + eapply Qclt_le_trans; done.
    + eapply Qcle_lt_trans; done.
Qed.

(** X20: with distinct labels, every column that an agent with a larger
    multiplier reports in [anomalies] is also reported by an agent with a
    smaller one, with at least as many outliers. *)
Theorem X20_wider_multiplier_fewer_outliers (a1 a2 : DataQualityValidationAgent) df :
  NoDup (map fst (columns df)) ->
  (outlier_iqr_multiplier a1 ≤ outlier_iqr_multiplier a2)%Qc ->
  forall col e2,
    Py.dict_get (_detect_outliers a2 df) col = Some e2 ->
    exists e1,
      Py.dict_get (_detect_outliers a1 df) col = Some e1 /\
      (count e2 <= count e1)%nat.
Proof.
  intros Hnd Hk col e2 Hget.
  pose proof (dict_get_In _ _ _ Hget) as Hin. apply list_elem_of_In in Hin.
  assert (col ∈ Py.keys (_detect_outliers a2 df)) as Hkey.
  { by apply (list_elem_of_fmap_2 fst _ (col, e2)). }
  apply anomalies_keys_origin in Hkey as (series & Hcol & Hnum).
  apply list_elem_of_In in Hcol.
  rewrite (anomalies_lookup a2 df col series) in Hget by done.
  rewrite (anomalies_lookup a1 df col series) by done.
  rewrite Hnum in *. unfold anomaly_entry in *. cbn [snd] in *.
  destruct (dropna_numbers series) as [|x xs] eqn:Hs; [done|].
  pose proof (wider_bounds_fewer_outliers a1 a2 (x :: xs) ltac:(done) Hk) as Hle.
  set (n1 := outlier_count (iqr_stats a1 (x :: xs))) in *.
  set (n2 := outlier_count (iqr_stats a2 (x :: xs))) in *.
  clearbody n1 n2.
  destruct (0 <? n2)%nat eqn:H2; [|done].
  apply Nat.ltb_lt in H2. injection Hget as <-.
  destruct (0 <? n1)%nat eqn:H1.
  - eexists. split; [done|]. cbn [count]. lia.
  - apply Nat.ltb_ge in H1. lia.
Qed.

End OutlierOrder.

Section RowOrder.
Import Pandas DataQuality Spec.
Context `{NumericText}.

Lemma cells_perm c1 c2 : series_permuted c1 c2 -> cells c1 ≡ₚ cells c2.
Proof. intros [v w Hp|v w Hp|v w Hp|v w Hp|v w Hp]; simpl; try done; by apply fmap_Permutation. Qed.

Lemma dtype_perm c1 c2 :
  series_permuted c1 c2 ->
  is_numeric_dtype c1 = is_numeric_dtype c2 /\ is_object_dtype c1 = is_object_dtype c2.
Proof. by intros []. Qed.

Lemma any_null_count series : any_null series = (0 <? count_null series)%nat.
Proof. unfold any_null, count_null. by rewrite count_positive_existsb. Qed.

Lemma missing_entry_perm col1 col2 c1 c2 :
  series_permuted c1 c2 -> missing_entry (col1, c1) = missing_entry (col2, c2).
Proof.
  intros Hp. apply cells_perm in Hp. unfold missing_entry; cbn [snd].
  rewrite !any_null_count. unfold mean_null, count_null, len.
  assert (length (filter (fun x => isnull x = true) (cells c1)) =
          length (filter (fun x => isnull x = true) (cells c2))) as -> by (by rewrite Hp).
  assert (length (cells c1) = length (cells c2)) as -> by (by rewrite Hp).
  done.
Qed.

Lemma to_numeric_returns_iff (l : list pyobj) :
  (exists qs, to_numeric l = Py.Ret qs) <->
  Forall (fun x => exists q, to_numeric1 x = Py.Ret q) l.
Proof.
  induction l as [|x l IH]; simpl.
  - split; [constructor|eauto].
  - split.
    + intros [qs Hqs]. destruct (to_numeric1 x) as [q|e] eqn:Hx; [|done].
      simpl in Hqs. destruct (to_numeric l) as [qs'|e] eqn:Hl; [|done].
      constructor; [eauto|]. apply IH. eauto.
    + intros Hall. apply Forall_cons in Hall as [[q Hq] Hall].
      apply IH in Hall as [qs Hqs]. rewrite Hq. simpl. rewrite Hqs. simpl. eauto.
Qed.

Lemma nunique_types_perm (l1 l2 : list pyobj) :
  l1 ≡ₚ l2 -> nunique_types l1 = nunique_types l2.
Proof.
  intros Hp. unfold nunique_types. apply Permutation_length.
  apply NoDup_Permutation; [apply NoDup_remove_dups..|].
  intros t. rewrite !elem_of_remove_dups. by rewrite Hp.
Qed.

Lemma column_flag_perm c1 c2 : series_permuted c1 c2 -> column_flag c1 = column_flag c2.
Proof.
  intros Hp. destruct (dtype_perm c1 c2 Hp) as [Hn Ho].
  pose proof (cells_perm c1 c2 Hp) as Hc. unfold column_flag.
  rewrite <- Hn, <- Ho. destruct (is_numeric_dtype c1) eqn:Hnum.
  - rewrite !numeric_cells_pass; [done|congruence|done].
  - destruct (is_object_dtype c1); [|done].
    assert (dropna c1 ≡ₚ dropna c2) as Hd by (unfold dropna; by rewrite Hc).
    rewrite (nunique_types_perm _ _ Hd).
    destruct (to_numeric (dropna c1)) as [qs1|e1] eqn:H1,
             (to_numeric (dropna c2)) as [qs2|e2] eqn:H2; try done.
    + assert (exists qs, to_numeric (dropna c2) = Py.Ret qs) as [qs Hqs].
      { apply to_numeric_returns_iff. rewrite <- Hd. apply to_numeric_returns_iff. eauto. }
      congruence.
    + assert (exists qs, to_numeric (dropna c1) = Py.Ret qs) as [qs Hqs].
      { apply to_numeric_returns_iff. rewrite Hd. apply to_numeric_returns_iff. eauto. }
      congruence.
Qed.

Lemma missing_fold_perm cols1 cols2 (acc : Py.dict Qc) :
  Forall2 (fun c1 c2 => fst c1 = fst c2 /\ series_permuted (snd c1) (snd c2))
    cols1 cols2 ->
  fold_left
    (fun acc '(col, series) =>
       if any_null series
       then Py.dict_set acc col (Py.round (mean_null series) 4)
       else acc) cols1 acc =
  fold_left
    (fun acc '(col, series) =>
       if any_null series
       then Py.dict_set acc col (Py.round (mean_null series) 4)
       else acc) cols2 acc.
Proof.
  intros Hcols. revert acc.
  induction Hcols as [|[n1 c1] [n2 c2] cols1 cols2 [Hn Hp] _ IH]; intros acc; [done|].
  simpl in Hn, Hp. subst n2. cbn [fold_left].
  rewrite (missing_step acc (n1, c1)), (missing_step acc (n1, c2)).
  rewrite (missing_entry_perm n1 n1 c1 c2 Hp). apply IH.
Qed.

Lemma flagged_fold_perm cols1 cols2 (acc : Py.dict string) :
  Forall2 (fun c1 c2 => fst c1 = fst c2 /\ series_permuted (snd c1) (snd c2))
    cols1 cols2 ->
  fold_left set_flag cols1 acc = fold_left set_flag cols2 acc.
Proof.
  intros Hcols. revert acc.
  induction Hcols as [|[n1 c1] [n2 c2] cols1 cols2 [Hn Hp] _ IH]; intros acc; [done|].
  simpl in Hn, Hp. subst n2. cbn [fold_left]. unfold set_flag at 2 4. cbn [fst snd].
  rewrite (column_flag_perm c1 c2 Hp). apply IH.
Qed.

(** X21: [run] returns the same result on two frames that differ only in
    the order of their rows. *)
Theorem X21_report_ignores_row_order self df1 df2 :
  rows_permuted df1 df2 -> run self df1 = run self df2.
Proof.
  intros [Hlen Hcols].
  assert (map fst (columns df1) = map fst (columns df2)) as Hnames.
  { induction Hcols as [|c1 c2 l1 l2 [Hn _] _ IH]; [done|]. simpl. by rewrite Hn, IH. }
  assert (empty df1 = empty df2) as He.
  { unfold empty. by rewrite Hlen, (Forall2_length _ _ _ Hcols). }
  destruct (empty df1) eqn:He1.
  - by rewrite !run_empty.
  - assert (_dataset_summary df1 = _dataset_summary df2) as Hs.
    { unfold _dataset_summary. by rewrite Hlen, Hnames, (Forall2_length _ _ _ Hcols). }
    assert (_check_missing_values df1 = _check_missing_values df2) as Hm
      by apply (missing_fold_perm _ _ [] Hcols).
    assert (flagged_issues df1 = flagged_issues df2) as Hf
      by apply (flagged_fold_perm _ _ [] Hcols).
    assert (_detect_outliers self df1 = _detect_outliers self df2) as Ho
      by apply (detect_outliers_fold_perm self _ _ [] Hcols).
    rewrite !run_nonempty by done. unfold diagnostics.
    by rewrite Hs, Hm, Hf, Ho.
Qed.

End RowOrder.

(** ** The properties above at concrete inputs *)

Lemma sparse_labels_distinct : NoDup (map fst (Pandas.columns Examples.df_sparse)).
Proof. apply (bool_decide_unpack _). vm_compute. exact I. Defined.



Lemma X2_all_missing_column_blocks_witness :
  exists r,
    DataQuality.run (H := Spec.decimal_digits) DataQuality.default_agent
      Examples.df_sparse = Py.Ret r /\
    DataQuality.severity r = "HIGH" /\
    Py.dict_get (DataQuality.missing_values r) "note" = Some (qz 1) /\
    "Column 'note' missing 100.0% of values" ∈ DataQuality.blocking_issues r /\
    Py.dict_get (DataQuality.anomalies r) "note" = None.
Proof.
  apply (@X2_all_missing_column_blocks Spec.decimal_digits DataQuality.default_agent
           Examples.df_sparse "note" (Pandas.Float64 [None; None; None; None])).
  - exact sparse_labels_distinct.
  - right. left. reflexivity.
  - simpl. lia.
  - unfold Pandas.len. simpl. lia.
  - repeat constructor.
  - vm_compute. discriminate.
Defined.




Lemma X7_constant_column_not_anomalous_witness :
  exists r,
    DataQuality.run (H := Spec.decimal_digits) DataQuality.default_agent
      Examples.df_sparse = Py.Ret r /\
    Py.dict_get (DataQuality.anomalies r) "id" = None.
Proof.
  apply (@X7_constant_column_not_anomalous Spec.decimal_digits
           DataQuality.default_agent Examples.df_sparse "id"
           (Pandas.Int64 [Some 7; Some 7; Some 7; Some 7]%Z) (qz 7)).
  - exact sparse_labels_distinct.
  - left. reflexivity.
  - repeat constructor.
Defined.

Lemma X8_raising_threshold_never_escalates_witness :
  exists r1 r2,
    DataQuality.run (H := Spec.decimal_digits) Examples.agent_strict
      Examples.df_sparse = Py.Ret r1 /\
    DataQuality.run (H := Spec.decimal_digits) DataQuality.default_agent
      Examples.df_sparse = Py.Ret r2 /\
    DataQuality.blocking_issues r2 `sublist_of` DataQuality.blocking_issues r1.
Proof.
  assert (DataQuality.missing_critical_threshold Examples.agent_strict
            ≤ DataQuality.missing_critical_threshold DataQuality.default_agent)%Qc as Hle.
  { vm_compute. discriminate. }
  destruct (@X8_raising_threshold_never_escalates Spec.decimal_digits
              Examples.agent_strict DataQuality.default_agent Examples.df_sparse
              Hle eq_refl)
    as (r1 & r2 & H1 & H2 & Hsub & _).
  exists r1, r2. split; [exact H1|]. split; [exact H2|]. exact Hsub.
Defined.

Lemma X9_uniform_object_column_not_flagged_witness :
  exists r,
    DataQuality.run (H := Spec.decimal_digits) DataQuality.default_agent
      Examples.df_sparse = Py.Ret r /\
    Py.dict_get (DataQuality.type_issues r) "name" = None.
Proof.
  apply (@X9_uniform_object_column_not_flagged Spec.decimal_digits
           DataQuality.default_agent Examples.df_sparse "name"
           [Pandas.PyStr "a"; Pandas.PyStr "b"; Pandas.PyNull; Pandas.PyStr "d"]).
  - exact sparse_labels_distinct.
  - right. right. left. reflexivity.
  - left.
    repeat (apply Forall_cons; split; [first [left; reflexivity | right; eexists; reflexivity]|]).
    apply Forall_nil. exact I.
Defined.

Lemma X10_frame_without_columns_is_empty_witness :
  (1 <= Pandas.index_len Examples.df_no_columns)%nat /\
  DataQuality.run (H := Spec.decimal_digits) DataQuality.default_agent
    Examples.df_no_columns = Py.Ret DataQuality._empty_dataset_report.
Proof.
  split; [simpl; lia|].
  apply (@X10_frame_without_columns_is_empty Spec.decimal_digits
           DataQuality.default_agent Examples.df_no_columns). reflexivity.
Defined.

Lemma X14_high_severity_recommendations_witness :
  exists r,
    DataQuality.run (H := Spec.decimal_digits) DataQuality.default_agent
      Examples.df_age_city = Py.Ret r /\
    (DataQuality.severity r = "HIGH" ->
       ("No missing-value preprocessing required."
          ∉ Reporter.recommendations (Reporter.format_report r)) /\
       (1 <= Reporter.columns_with_missing
               (Reporter.quality_missing_values
                  (Reporter.data_quality (Reporter.format_report r))))%nat) /\
    (DataQuality.severity r = "MEDIUM" ->
       ("Review anomaly-prone numerical features for business validity."
          ∈ Reporter.recommendations (Reporter.format_report r)) \/
       ("No schema or type corrections needed."
          ∉ Reporter.recommendations (Reporter.format_report r))).
Proof.
  apply (@X14_high_severity_recommendations Spec.decimal_digits
           DataQuality.default_agent Examples.df_age_city); simpl; lia.
Defined.

Lemma X15_type_issue_only_is_reported_as_anomaly_witness :
  exists r,
    DataQuality.run (H := Spec.decimal_digits) DataQuality.default_agent
      Examples.df_mixed = Py.Ret r /\
    Reporter.status_summary (Reporter.status (Reporter.format_report r)) =
      "Dataset is usable with minor anomalies that should be reviewed." /\
    Reporter.anomaly_summary (Reporter.anomaly_analysis (Reporter.format_report r)) =
      "No anomalies detected" /\
    (1 <= Reporter.type_count
            (Reporter.quality_type_issues
               (Reporter.data_quality (Reporter.format_report r))))%nat.
Proof.
  eexists. split; [reflexivity|].
  apply (@X15_type_issue_only_is_reported_as_anomaly Spec.decimal_digits
           DataQuality.default_agent Examples.df_mixed); reflexivity.
Defined.

Lemma X16_logged_entry_is_queryable_witness :
  AuditTrail.query_logs (Some "X") None
    (AuditTrail.log_action "t4" "X" "prediction" None None None Examples.three_calls)
  = [Examples.entry unit "t1" "X" "summary"; Examples.entry unit "t3" "X" "validation";
     Examples.entry unit "t4" "X" "prediction"].
Proof.
  assert ("X" <> "") as Hx by discriminate.
  rewrite (proj2 (@X16_logged_entry_is_queryable unit "t4" "X" "prediction"
                    None None None Examples.three_calls "X" Hx)).
  reflexivity.
Defined.


Lemma X19_iqr_bounds_ordered_witness :
  (0 ≤ DataQuality.iqr
         (DataQuality.iqr_stats DataQuality.default_agent
            (map qz Examples.one_to_nine_and_1000)))%Qc.
Proof.
  assert (map qz Examples.one_to_nine_and_1000 <> []) as Hne by discriminate.
  assert (0 ≤ DataQuality.outlier_iqr_multiplier DataQuality.default_agent)%Qc as Hk
    by (vm_compute; discriminate).
  exact (proj1 (X19_iqr_bounds_ordered DataQuality.default_agent
                  (map qz Examples.one_to_nine_and_1000) Hne Hk)).
Defined.

Lemma X20_wider_multiplier_fewer_outliers_witness :
  (DataQuality.outlier_iqr_multiplier DataQuality.default_agent
     ≤ DataQuality.outlier_iqr_multiplier Examples.agent_wide)%Qc /\
  forall col e2,
    Py.dict_get (DataQuality._detect_outliers Examples.agent_wide Examples.df_outlier) col
      = Some e2 ->
    exists e1,
      Py.dict_get (DataQuality._detect_outliers DataQuality.default_agent
                     Examples.df_outlier) col = Some e1 /\
      (DataQuality.count e2 <= DataQuality.count e1)%nat.
Proof.
  assert (NoDup (map fst (Pandas.columns Examples.df_outlier))) as Hnd
    by (apply NoDup_singleton).
  assert (DataQuality.outlier_iqr_multiplier DataQuality.default_agent
            ≤ DataQuality.outlier_iqr_multiplier Examples.agent_wide)%Qc as Hk
    by (vm_compute; discriminate).
  split; [exact Hk|].
  exact (X20_wider_multiplier_fewer_outliers DataQuality.default_agent
           Examples.agent_wide Examples.df_outlier Hnd Hk).
Defined.

Lemma X21_report_ignores_row_order_witness :
  DataQuality.run (H := Spec.decimal_digits) DataQuality.default_agent Examples.df_rows =
  DataQuality.run (H := Spec.decimal_digits) DataQuality.default_agent
    Examples.df_rows_reordered.
Proof.
  assert (Spec.rows_permuted Examples.df_rows Examples.df_rows_reordered) as Hrows.
  { split; [reflexivity|]. simpl. repeat constructor; simpl.
    - etransitivity; [apply perm_skip, perm_swap|apply perm_swap].
    - etransitivity; [apply perm_skip, perm_swap|apply perm_swap]. }
  exact (@X21_report_ignores_row_order Spec.decimal_digits DataQuality.default_agent
           Examples.df_rows Examples.df_rows_reordered Hrows).
Defined.
